(** * Meddy: the demo chat of the medication companion

    A shallow embedding of the photo-recognition / chat script of the
    MedCompanion web site (the file that starts with
    "Photo Recognition and AI Chat Functionality") and of the backend
    start-up script [start.sh], followed by the properties the
    specification states about them.

    Conventions.
    - A JavaScript string is a [string]: the sequence of bytes of its UTF-8
      encoding.  Every keyword the script searches for is ASCII, and an
      ASCII byte never occurs inside a multi-byte UTF-8 sequence, so
      [includes] on bytes decides what [String.prototype.includes] decides
      on UTF-16 code units.
    - [String.prototype.toLowerCase] and [String.prototype.trim] are the
      engine's (Unicode tables); the script only calls them.  They are
      [Variable]s of the sections below, so every theorem holds for whatever
      function the engine implements.  [asciiLower] is the lowering of the
      ASCII letters, which is what [toLowerCase] does on ASCII text; closed
      examples use it.
    - The globals of the script ([currentMedication],
      [conversationHistory]), the page elements it looks up by id and the
      pending timers are the fields of [State]; a function of the script
      that reads or writes them is a computation in the state monad [JS]. *)

From Stdlib Require Import String Ascii List ZArith Lia Bool.
From Stdlib Require Import Floats.SpecFloat.
From stdpp Require Import base list.
Import ListNotations.

Local Open Scope string_scope.
Local Open Scope Z_scope.

(** ** Strings *)

Module Str.

Infix "^^" := String.append (at level 60, right associativity) : string_scope.

(** The line feed of a template literal that spans lines. *)
Definition LF : string := String "010"%char EmptyString.

(** [s] without the prefix [p], when it starts with it. *)
Fixpoint stripPrefix (p s : string) : option string :=
  match p, s with
  | EmptyString, _ => Some s
  | String a p', String b s' => if Ascii.eqb a b then stripPrefix p' s' else None
  | String _ _, EmptyString => None
  end.

(** [s.startsWith(t)] *)
Definition startsWith (s t : string) : bool :=
  match stripPrefix t s with Some _ => true | None => false end.

(** [s.includes(t)]: [t] occurs in [s] at some position. *)
Fixpoint includes (s t : string) : bool :=
  startsWith s t ||
  match s with
  | EmptyString => false
  | String _ s' => includes s' t
  end.

(** Lowering of one ASCII letter; every other byte is kept. *)
Definition lowerAscii (c : ascii) : ascii :=
  let n := N_of_ascii c in
  if ((65 <=? n) && (n <=? 90))%N then ascii_of_N (n + 32) else c.

Fixpoint asciiLower (s : string) : string :=
  match s with
  | EmptyString => EmptyString
  | String c s' => String (lowerAscii c) (asciiLower s')
  end.

Definition isEmpty (s : string) : bool :=
  match s with EmptyString => true | _ => false end.

End Str.
Import Str.

(** ** The medication catalog *)

Record Medication := {
  name : string;
  genericName : string;
  dosage : string;
  drugClass : string;
  description : string;
  sideEffects : string;
  instructions : string
}.

Definition metformin : Medication := {|
  name := "Metformin";
  genericName := "Metformin Hydrochloride";
  dosage := "500mg";
  drugClass := "Antidiabetic";
  description := "Used to control blood sugar levels in people with type 2 diabetes.";
  sideEffects := "Nausea, diarrhea, stomach upset";
  instructions := "Take with food to reduce stomach upset"
|}.

Definition lisinopril : Medication := {|
  name := "Lisinopril";
  genericName := "Lisinopril";
  dosage := "10mg";
  drugClass := "ACE Inhibitor";
  description := "Used to treat high blood pressure and heart failure.";
  sideEffects := "Dizziness, dry cough, headache";
  instructions := "Take once daily, preferably at the same time each day"
|}.

Definition aspirin : Medication := {|
  name := "Aspirin";
  genericName := "Acetylsalicylic Acid";
  dosage := "81mg";
  drugClass := "Antiplatelet";
  description := "Used to reduce the risk of heart attack and stroke.";
  sideEffects := "Stomach upset, heartburn";
  instructions := "Take with food or milk"
|}.

(** The object literal [medicationDatabase].  [Object.keys] lists string
    keys in insertion order, so the order of the entries is kept. *)
Definition medicationDatabase : list (string * Medication) :=
  [ ("metformin", metformin); ("lisinopril", lisinopril); ("aspirin", aspirin) ].

(** [Object.keys(db)] *)
Definition keys (db : list (string * Medication)) : list string := map fst db.

(** [db[k]]; [None] is JavaScript's [undefined]. *)
Fixpoint getProp (db : list (string * Medication)) (k : string) : option Medication :=
  match db with
  | [] => None
  | (k', m) :: db' => if String.eqb k' k then Some m else getProp db' k
  end.

(** ** The replies of [generateAIResponse] *)

Definition refusalMessage : string :=
  "I can't provide advice on changing your medication dosage or treatment plan. Please consult your doctor or pharmacist for any changes to your prescribed medications. Your safety is my top priority!".

Definition sideEffectReply (m : Medication) : string :=
  "Common side effects of " ^^ name m ^^ " include: " ^^ sideEffects m ^^ ". " ^^ LF ^^
  LF ^^
  "If you experience severe or persistent side effects, please contact your healthcare provider immediately.".

Definition instructionsReply (m : Medication) : string :=
  "**Instructions for " ^^ name m ^^ ":**" ^^ LF ^^
  LF ^^
  instructions m ^^ LF ^^
  LF ^^
  "Always follow your doctor's specific instructions, as they may differ based on your individual needs.".

Definition identityReply (m : Medication) : string :=
  name m ^^ " is a " ^^ drugClass m ^^ " medication. " ^^ description m ^^ LF ^^
  LF ^^
  "It's important to take it as prescribed by your doctor for the best results.".

Definition foodReply (m : Medication) : string :=
  instructions m ^^ LF ^^
  LF ^^
  "If you're unsure about food interactions, check with your pharmacist or the medication guide that came with your prescription.".

Definition missedDoseReply (m : Medication) : string :=
  "If you miss a dose of " ^^ name m ^^ ", take it as soon as you remember. However, if it's almost time for your next dose, skip the missed dose and continue with your regular schedule." ^^ LF ^^
  LF ^^
  "Never double up on doses. If you're unsure, contact your pharmacist for guidance.".

Definition thanksReply : string :=
  "You're welcome! I'm here to help you understand your medications better. Feel free to ask anything else!".

Definition greetingReply : string :=
  "Hello! I'm here to help you with your medication questions. Upload a photo of your pill, or ask me anything about your medications!".

Definition defaultReply (cm : option Medication) : string :=
  "I'd be happy to help with that! " ^^
  match cm with Some m => "For " ^^ name m ^^ ", " | None => "" end ^^
  "I can provide information about:" ^^ LF ^^
  LF ^^
  "• Side effects" ^^ LF ^^
  "• How to take it" ^^ LF ^^
  "• What it's used for" ^^ LF ^^
  "• What to do if you miss a dose" ^^ LF ^^
  LF ^^
  "What would you like to know?".

(** The message [recognizePill] passes to [addAIMessage]. *)
Definition recognitionMessage (m : Medication) : string :=
  "I've identified your medication! This appears to be **" ^^ name m ^^ "** (" ^^
  genericName m ^^ "), " ^^ dosage m ^^ "." ^^ LF ^^
  LF ^^
  "**What it's for:** " ^^ description m ^^ LF ^^
  LF ^^
  "**Drug class:** " ^^ drugClass m ^^ LF ^^
  LF ^^
  "Would you like to know more about side effects, dosage instructions, or anything else?".

(** ** The state of a page view *)

Inductive Role := user | ai.

(** An entry of [conversationHistory]: [{ role, content }]. *)
Record Message := { role : Role; content : string }.

(** A [div] made by [document.createElement] and appended to the chat. *)
Record ChatNode := { className : string; innerHTML : string }.

(** The elements the script looks up by id, with the properties it reads or
    writes.  The markup of the demo page is not part of the script; the
    elements are taken as present, which is what the script itself relies
    on inside its functions. *)
Record Page := {
  uploadZone_classList : list string;
  uploadZone_borderColor : string;
  uploadZone_background : string;
  photoPreview_classList : list string;
  previewImage_src : string;
  fileInput_value : string;
  chatInput_value : string;
  chatMessages_children : list ChatNode;
  chatMessages_scrollTop : Z
}.

(** What the event loop still has to run: the [onload] of a [FileReader]
    and the callbacks handed to [setTimeout]. *)
Inductive Task :=
| ReaderOnload (result : string)
| RecognizeTimer
| ResponseTimer (message : string).

Record State := {
  currentMedication : option Medication;
  conversationHistory : list Message;
  page : Page;
  timers : list (Z * Task)
}.

(** Page load: [let currentMedication = null; let conversationHistory = [];]
    over a given page. *)
Definition initialState (p : Page) : State :=
  {| currentMedication := None; conversationHistory := []; page := p; timers := [] |}.

Definition set_currentMedication (v : option Medication) (st : State) : State :=
  {| currentMedication := v; conversationHistory := conversationHistory st;
     page := page st; timers := timers st |}.

Definition set_conversationHistory (f : list Message -> list Message) (st : State) : State :=
  {| currentMedication := currentMedication st;
     conversationHistory := f (conversationHistory st);
     page := page st; timers := timers st |}.

Definition set_page (f : Page -> Page) (st : State) : State :=
  {| currentMedication := currentMedication st;
     conversationHistory := conversationHistory st;
     page := f (page st); timers := timers st |}.

Definition set_timers (f : list (Z * Task) -> list (Z * Task)) (st : State) : State :=
  {| currentMedication := currentMedication st;
     conversationHistory := conversationHistory st;
     page := page st; timers := f (timers st) |}.

Module Dom.

(** [classList.add(c)] and [classList.remove(c)] on a token list. *)
Definition classList_add (c : string) (l : list string) : list string :=
  if existsb (String.eqb c) l then l else (l ++ [c])%list.

Definition classList_remove (c : string) (l : list string) : list string :=
  filter (fun x => negb (String.eqb c x)) l.

Definition with_uploadZone_classList (f : list string -> list string) (p : Page) : Page :=
  {| uploadZone_classList := f (uploadZone_classList p);
     uploadZone_borderColor := uploadZone_borderColor p;
     uploadZone_background := uploadZone_background p;
     photoPreview_classList := photoPreview_classList p;
     previewImage_src := previewImage_src p;
     fileInput_value := fileInput_value p;
     chatInput_value := chatInput_value p;
     chatMessages_children := chatMessages_children p;
     chatMessages_scrollTop := chatMessages_scrollTop p |}.

Definition with_uploadZone_style (border background : string) (p : Page) : Page :=
  {| uploadZone_classList := uploadZone_classList p;
     uploadZone_borderColor := border;
     uploadZone_background := background;
     photoPreview_classList := photoPreview_classList p;
     previewImage_src := previewImage_src p;
     fileInput_value := fileInput_value p;
     chatInput_value := chatInput_value p;
     chatMessages_children := chatMessages_children p;
     chatMessages_scrollTop := chatMessages_scrollTop p |}.

Definition with_photoPreview_classList (f : list string -> list string) (p : Page) : Page :=
  {| uploadZone_classList := uploadZone_classList p;
     uploadZone_borderColor := uploadZone_borderColor p;
     uploadZone_background := uploadZone_background p;
     photoPreview_classList := f (photoPreview_classList p);
     previewImage_src := previewImage_src p;
     fileInput_value := fileInput_value p;
     chatInput_value := chatInput_value p;
     chatMessages_children := chatMessages_children p;
     chatMessages_scrollTop := chatMessages_scrollTop p |}.

Definition with_previewImage_src (v : string) (p : Page) : Page :=
  {| uploadZone_classList := uploadZone_classList p;
     uploadZone_borderColor := uploadZone_borderColor p;
     uploadZone_background := uploadZone_background p;
     photoPreview_classList := photoPreview_classList p;
     previewImage_src := v;
     fileInput_value := fileInput_value p;
     chatInput_value := chatInput_value p;
     chatMessages_children := chatMessages_children p;
     chatMessages_scrollTop := chatMessages_scrollTop p |}.

Definition with_fileInput_value (v : string) (p : Page) : Page :=
  {| uploadZone_classList := uploadZone_classList p;
     uploadZone_borderColor := uploadZone_borderColor p;
     uploadZone_background := uploadZone_background p;
     photoPreview_classList := photoPreview_classList p;
     previewImage_src := previewImage_src p;
     fileInput_value := v;
     chatInput_value := chatInput_value p;
     chatMessages_children := chatMessages_children p;
     chatMessages_scrollTop := chatMessages_scrollTop p |}.

Definition with_chatInput_value (v : string) (p : Page) : Page :=
  {| uploadZone_classList := uploadZone_classList p;
     uploadZone_borderColor := uploadZone_borderColor p;
     uploadZone_background := uploadZone_background p;
     photoPreview_classList := photoPreview_classList p;
     previewImage_src := previewImage_src p;
     fileInput_value := fileInput_value p;
     chatInput_value := v;
     chatMessages_children := chatMessages_children p;
     chatMessages_scrollTop := chatMessages_scrollTop p |}.

(** [chatMessages.appendChild(node)] *)
Definition appendChild (node : ChatNode) (p : Page) : Page :=
  {| uploadZone_classList := uploadZone_classList p;
     uploadZone_borderColor := uploadZone_borderColor p;
     uploadZone_background := uploadZone_background p;
     photoPreview_classList := photoPreview_classList p;
     previewImage_src := previewImage_src p;
     fileInput_value := fileInput_value p;
     chatInput_value := chatInput_value p;
     chatMessages_children := (chatMessages_children p ++ [node])%list;
     chatMessages_scrollTop := chatMessages_scrollTop p |}.

Definition with_chatMessages_scrollTop (v : Z) (p : Page) : Page :=
  {| uploadZone_classList := uploadZone_classList p;
     uploadZone_borderColor := uploadZone_borderColor p;
     uploadZone_background := uploadZone_background p;
     photoPreview_classList := photoPreview_classList p;
     previewImage_src := previewImage_src p;
     fileInput_value := fileInput_value p;
     chatInput_value := chatInput_value p;
     chatMessages_children := chatMessages_children p;
     chatMessages_scrollTop := v |}.

End Dom.

(** ** The monad of the script: state, and a thrown [TypeError] *)

Inductive Completion (A : Type) :=
| Normal (a : A)
| Throw.
Arguments Normal {A} a.
Arguments Throw {A}.

Definition JS (A : Type) : Type := State -> Completion A * State.

Definition ret {A} (a : A) : JS A := fun st => (Normal a, st).

Definition throw {A} : JS A := fun st => (Throw, st).

(** Sequencing: a throw skips what follows and keeps the writes made so far. *)
Definition bind {A B} (c : JS A) (k : A -> JS B) : JS B :=
  fun st =>
    match c st with
    | (Normal a, st') => k a st'
    | (Throw, st') => (Throw, st')
    end.

Definition gets {A} (f : State -> A) : JS A := fun st => (Normal (f st), st).

Definition modify (f : State -> State) : JS unit := fun st => (Normal tt, f st).

Declare Scope js_scope.
Delimit Scope js_scope with js.
Notation "x <- c ;; k" := (bind c (fun x => k))
  (at level 100, c at next level, right associativity) : js_scope.
Notation "c ;; k" := (bind c (fun _ => k))
  (at level 100, right associativity) : js_scope.
Local Open Scope js_scope.

(** ** Numbers: what [Math.floor(Math.random() * meds.length)] computes

    A JavaScript number is an IEEE 754 binary64 value: a [spec_float] with
    precision 53 and maximal exponent 1024. *)

Module Num.

Definition prec : Z := 53.
Definition emax : Z := 1024.

(** The number an array length is. *)
Definition ofNat (n : nat) : spec_float :=
  binary_normalize prec emax (Z.of_nat n) 0 false.

Definition one : spec_float := ofNat 1.

Definition mul : spec_float -> spec_float -> spec_float := SFmul prec emax.

(** What [Math.random()] may return: a binary64 value [r] with
    [0 <= r < 1]. *)
Definition isRandom (r : spec_float) : bool :=
  valid_binary prec emax r && SFleb (S754_zero false) r && SFltb r one.

(** The integer [Math.floor(x)] is; [None] when [x] is NaN or infinite
    ([Math.floor] returns those as they are, and they index nothing). *)
Definition floor (x : spec_float) : option Z :=
  match x with
  | S754_zero _ => Some 0
  | S754_finite s m e => Some (Z.shiftl (cond_Zopp s (Zpos m)) e)
  | S754_infinity _ | S754_nan => None
  end.

(** [arr[i]] for the number [i]: [None] is [undefined]. *)
Definition index {A} (arr : list A) (i : option Z) : option A :=
  match i with
  | Some z => if z <? 0 then None else nth_error arr (Z.to_nat z)
  | None => None
  end.

End Num.

(** ** The script *)

Section Script.

(** The engine's [String.prototype.toLowerCase] and
    [String.prototype.trim]. *)
Variable toLowerCase : string -> string.
Variable trim : string -> string.

(** [escapeHtml] and [formatMessage] produce markup only (through the
    browser's serializer and the regular-expression engine), and the
    layout gives [scrollHeight]; what they return reaches [innerHTML] and
    [scrollTop] and nothing else. *)
Variable escapeHtml : string -> string.
Variable formatMessage : string -> string.
Variable scrollHeight : list ChatNode -> Z.

Definition DQ : string := String "034"%char EmptyString.

Definition messageContent (html : string) : string :=
  "<div class=" ^^ DQ ^^ "message-content" ^^ DQ ^^ ">" ^^ html ^^ "</div>".

Definition scrollToBottom (p : Page) : Page :=
  Dom.with_chatMessages_scrollTop (scrollHeight (chatMessages_children p)) p.

Definition addUserMessage (text : string) : JS unit :=
  let messageDiv :=
    {| className := "chat-message user-message";
       innerHTML := messageContent (escapeHtml text) |} in
  modify (set_page (Dom.appendChild messageDiv)) ;;
  modify (set_page scrollToBottom) ;;
  modify (set_conversationHistory (fun h => (h ++ [{| role := user; content := text |}])%list)).

Definition addAIMessage (text : string) : JS unit :=
  let messageDiv :=
    {| className := "chat-message ai-message";
       innerHTML := messageContent (formatMessage text) |} in
  modify (set_page (Dom.appendChild messageDiv)) ;;
  modify (set_page scrollToBottom) ;;
  modify (set_conversationHistory (fun h => (h ++ [{| role := ai; content := text |}])%list)).

(** The guard of the first [if] of [generateAIResponse]. *)
Definition isDangerous (lowerMessage : string) : bool :=
  includes lowerMessage "dosage change" ||
  includes lowerMessage "stop taking" ||
  includes lowerMessage "instead of" ||
  includes lowerMessage "replace".

(** The part of [generateAIResponse] after the context-aware block:
    "General helpful responses" and "Default response". *)
Definition generalResponse (lowerMessage : string) : JS string :=
  if includes lowerMessage "thank" then ret thanksReply
  else if includes lowerMessage "hello" || includes lowerMessage "hi" then ret greetingReply
  else
    cm <- gets currentMedication ;;
    ret (defaultReply cm).

Definition generateAIResponse (userMessage : string) : JS string :=
  let lowerMessage := toLowerCase userMessage in
  if isDangerous lowerMessage then ret refusalMessage
  else
    cm <- gets currentMedication ;;
    match cm with
    | Some m =>
        if includes lowerMessage "side effect" then
          ret (sideEffectReply m)
        else if includes lowerMessage "how to take" || includes lowerMessage "instruction" then
          ret (instructionsReply m)
        else if includes lowerMessage "what is" || includes lowerMessage "what does" then
          ret (identityReply m)
        else if includes lowerMessage "food" || includes lowerMessage "eat" then
          ret (foodReply m)
        else if includes lowerMessage "miss" || includes lowerMessage "forgot" then
          ret (missedDoseReply m)
        else generalResponse lowerMessage
    | None => generalResponse lowerMessage
    end.

(** [setTimeout(callback, delay)] *)
Definition setTimeout (t : Task) (delay : Z) : JS unit :=
  modify (set_timers (fun q => (q ++ [(delay, t)])%list)).

(** [recognizePill], for the number [r] that [Math.random()] returns.
    [currentMedication.name] throws when the lookup gave [undefined]. *)
Definition recognizePill (r : spec_float) : JS unit :=
  let meds := keys medicationDatabase in
  let randomMed := Num.index meds (Num.floor (Num.mul r (Num.ofNat (length meds)))) in
  modify (set_currentMedication
            (match randomMed with
             | Some k => getProp medicationDatabase k
             | None => None
             end)) ;;
  cm <- gets currentMedication ;;
  match cm with
  | Some m => addAIMessage (recognitionMessage m)
  | None => throw
  end.

Definition resetUpload : JS unit :=
  modify (set_page (Dom.with_uploadZone_classList (Dom.classList_remove "hidden"))) ;;
  modify (set_page (Dom.with_photoPreview_classList (Dom.classList_add "hidden"))) ;;
  modify (set_page (Dom.with_previewImage_src "")) ;;
  modify (set_page (Dom.with_fileInput_value "")) ;;
  modify (set_currentMedication None).

(** A [File]: its MIME type, and the data URL a [FileReader] makes of it. *)
Record File := { type : string; dataURL : string }.

(** [handleImageUpload]: [readAsDataURL] is asynchronous, [onload] runs
    later with the result. *)
Definition handleImageUpload (file : File) : JS unit :=
  modify (set_timers (fun q => (q ++ [(0, ReaderOnload (dataURL file))])%list)).

(** The body of [reader.onload]. *)
Definition readerOnload (result : string) : JS unit :=
  modify (set_page (Dom.with_uploadZone_classList (Dom.classList_add "hidden"))) ;;
  modify (set_page (Dom.with_photoPreview_classList (Dom.classList_remove "hidden"))) ;;
  modify (set_page (Dom.with_previewImage_src result)) ;;
  setTimeout RecognizeTimer 1500.

Definition sendMessage : JS unit :=
  input <- gets (fun st => chatInput_value (page st)) ;;
  let message := trim input in
  if isEmpty message then ret tt
  else
    addUserMessage message ;;
    modify (set_page (Dom.with_chatInput_value "")) ;;
    setTimeout (ResponseTimer message) 800.

(** The callback [sendMessage] hands to [setTimeout]. *)
Definition respond (message : string) : JS unit :=
  response <- generateAIResponse message ;;
  addAIMessage response.

(** [if (file && file.type.startsWith('image/')) handleImageUpload(file)] *)
Definition uploadIfImage (file : option File) : JS unit :=
  match file with
  | Some f => if startsWith (type f) "image/" then handleImageUpload f else ret tt
  | None => ret tt
  end.

(** *** The events of the page

    The listeners the script registers ([change] on the file input,
    [dragover], [dragleave] and [drop] on the upload zone, [keypress] on the
    chat input), the two functions the page calls ([resetUpload],
    [sendMessage]), the user editing the chat input, and the event loop
    running a pending callback.  [files[0]] is [None] when no file came with
    the event; [random] is what [Math.random()] returns if the callback
    asks. *)

Inductive Event :=
| FileInputChange (file : option File)
| DragOver
| DragLeave
| Drop (file : option File)
| ResetUpload
| SendMessage
| KeyPress (key : string)
| Typed (text : string)
| Fire (i : nat) (random : spec_float).

Definition runTask (t : Task) (random : spec_float) : JS unit :=
  match t with
  | ReaderOnload result => readerOnload result
  | RecognizeTimer => recognizePill random
  | ResponseTimer message => respond message
  end.

(** [l] without its [i]-th element. *)
Definition removeAt {A} (i : nat) (l : list A) : list A :=
  (firstn i l ++ skipn (S i) l)%list.

Definition handle (e : Event) : JS unit :=
  match e with
  | FileInputChange file => uploadIfImage file
  | DragOver =>
      modify (set_page (Dom.with_uploadZone_style "#4A90E2" "rgba(74, 144, 226, 0.1)"))
  | DragLeave =>
      modify (set_page (Dom.with_uploadZone_style "rgba(74, 144, 226, 0.3)" ""))
  | Drop file =>
      uploadIfImage file ;;
      modify (set_page (Dom.with_uploadZone_style "rgba(74, 144, 226, 0.3)" ""))
  | ResetUpload => resetUpload
  | SendMessage => sendMessage
  | KeyPress key => if String.eqb key "Enter" then sendMessage else ret tt
  | Typed text => modify (set_page (Dom.with_chatInput_value text))
  | Fire i random =>
      q <- gets timers ;;
      match nth_error q i with
      | Some (_, t) =>
          modify (set_timers (removeAt i)) ;;
          runTask t random
      | None => ret tt
      end
  end.

(** One turn of the event loop; an uncaught exception ends the handler and
    keeps what it wrote. *)
Definition step (st : State) (e : Event) : State := snd (handle e st).

Definition run (st : State) (es : list Event) : State := fold_left step es st.

End Script.

(** ** The backend start-up script [start.sh] *)

Module StartScript.

(** What the script looks at: whether [venv] is a directory, and the
    contents of [.env] and [.env.example] where they are regular files that
    can be read, as the bytes they hold. *)
Record Env := {
  venv : bool;
  dotenv : option string;
  dotenv_example : option string
}.

Inductive Outcome :=
| Exit (code : Z)
| ServerStarted.

Definition KEY : string := "GEMINI_API_KEY=".

(** [.*[^_]] matched at the start of [s], byte by byte: some byte of [s] is
    not an underscore.

    [grep] matches characters of the locale's encoding, and ends a line at a
    NUL byte as it does at a line feed; in a multibyte locale [.] and
    [[^_]] match no byte that is not part of a character.  A match of
    [grep] is made of the pattern's bytes, a run of characters and one
    character that is not an underscore, all between two line ends, so its
    bytes are a match here: what [grep] selects is selected by this search.
    The converse holds where every byte is a character of its own in every
    locale and none is NUL ([asciiText] below); on other files this search
    may select a line that [grep] does not. *)
Fixpoint anyThenNonUnderscore (s : string) : bool :=
  match s with
  | EmptyString => false
  | String c s' => negb (Ascii.eqb c "_") || anyThenNonUnderscore s'
  end.

(** The pattern [GEMINI_API_KEY=.*[^_]] searched in one line, as [grep]
    does: tried at every position.  The search is over bytes, see
    [anyThenNonUnderscore]. *)
Fixpoint grepLine (line : string) : bool :=
  match stripPrefix KEY line with
  | Some rest => anyThenNonUnderscore rest
  | None => false
  end ||
  match line with
  | EmptyString => false
  | String _ line' => grepLine line'
  end.

(** The lines of a file. *)
Fixpoint lines (s : string) : list string :=
  match s with
  | EmptyString => [EmptyString]
  | String c s' =>
      if Ascii.eqb c "010" then EmptyString :: lines s'
      else match lines s' with
           | [] => [String c EmptyString]
           | l :: ls => String c l :: ls
           end
  end.

(** [grep -q PATTERN .env]: status 0 when some line matches.  [true] here
    whenever [grep] has status 0, and status 0 whenever [true] here on an
    [asciiText] file. *)
Definition grep_q (contents : string) : bool := existsb grepLine (lines contents).

(** The script, top to bottom; the second component is the file system it
    leaves ([cp .env.example .env] on the second branch). *)
Definition start (env : Env) : Outcome * Env :=
  if negb (venv env) then (Exit 1, env)
  else
    match dotenv env with
    | None =>
        (Exit 1,
         {| venv := venv env;
            dotenv := dotenv_example env;
            dotenv_example := dotenv_example env |})
    | Some contents =>
        if negb (grep_q contents) then (Exit 1, env)
        else (ServerStarted, env)
    end.

(** The value the script's own messages show in place of a key
    ([echo "GEMINI_API_KEY=your_api_key_here"]). *)
Definition placeholder : string := "your_api_key_here".

(** What the pattern asks of a file, said without the search: some line
    reads [p GEMINI_API_KEY= v c q] with [c] not an underscore. *)
Definition keyIsSet (contents : string) : Prop :=
  exists line p v c q,
    In line (lines contents) /\
    line = p ^^ KEY ^^ v ^^ String c q /\
    c <> "_"%char.

(** A file that is text in every locale: each byte is an ASCII character
    and none is NUL.  [grep] reads such a file one byte a character. *)
Definition asciiChar (c : ascii) : bool :=
  (0 <? Ascii.N_of_ascii c)%N && (Ascii.N_of_ascii c <? 128)%N.

Fixpoint asciiText (contents : string) : bool :=
  match contents with
  | EmptyString => true
  | String c contents' => asciiChar c && asciiText contents'
  end.

(** A first run on a fresh checkout, then a second run on what it left. *)
Definition startTwice (env : Env) : Outcome * Outcome :=
  let (first, env') := start env in
  (first, fst (start env')).

End StartScript.

(** ** Closed inputs for the examples *)

Definition emptyPage : Page := {|
  uploadZone_classList := [];
  uploadZone_borderColor := "";
  uploadZone_background := "";
  photoPreview_classList := ["hidden"];
  previewImage_src := "";
  fileInput_value := "";
  chatInput_value := "";
  chatMessages_children := [];
  chatMessages_scrollTop := 0
|}.

(** A page view in which Lisinopril was recognized. *)
Definition lisinoprilState : State :=
  set_currentMedication (Some lisinopril) (initialState emptyPage).

(** [0.5] *)
Definition half : spec_float := S754_finite false 4503599627370496 (-53).

(** ** The rule table of the specification

    The context-dependent rules as the specification words them: an
    ordered list of (trigger substrings, reply template), first match
    wins. *)

Definition KeywordRule : Type := list string * (Medication -> string).

Definition contextRules : list KeywordRule :=
  [ (["side effect"], sideEffectReply);
    (["how to take"; "instruction"], instructionsReply);
    (["what is"; "what does"], identityReply);
    (["food"; "eat"], foodReply);
    (["miss"; "forgot"], missedDoseReply) ].

Definition ruleMatches (lowerMessage : string) (r : KeywordRule) : bool :=
  existsb (includes lowerMessage) (fst r).

Definition firstMatch (lowerMessage : string) (rules : list KeywordRule)
  : option (Medication -> string) :=
  option_map snd (find (ruleMatches lowerMessage) rules).

(** The templated replies of the context-dependent rules for one record. *)
Definition contextReplies (m : Medication) : list string :=
  map (fun r : KeywordRule => snd r m) contextRules.

(** The members of the catalog. *)
Definition catalog : list Medication := map snd medicationDatabase.

(** ** Rendering: [formatMessage] and [escapeHtml] as the platform runs them

    Inside the sections above the two functions are parameters.  Here they
    are written out: [formatMessage] through the semantics of
    [String.prototype.replace] with a global regular expression,
    [escapeHtml] through the serialization of the one text node that
    [div.textContent = text] creates.  Strings are UTF-8 bytes, so U+2028,
    U+2029 and U+00A0 are the byte sequences E2 80 A8, E2 80 A9 and C2 A0. *)

Module Render.

(** [c] occurs in [s]. *)
Fixpoint hasChar (c : ascii) (s : string) : bool :=
  match s with
  | EmptyString => false
  | String a s' => Ascii.eqb a c || hasChar c s'
  end.

Definition LS_tail : string := String "128" (String "168" EmptyString).
Definition PS_tail : string := String "128" (String "169" EmptyString).

(** The character at the head of [s] is one the regular-expression dot
    refuses: LF, CR, U+2028 or U+2029. *)
Definition lineTerminatorAhead (s : string) : bool :=
  match s with
  | EmptyString => false
  | String c s' =>
      Ascii.eqb c "010" || Ascii.eqb c "013" ||
      (Ascii.eqb c "226" && (startsWith s' LS_tail || startsWith s' PS_tail))
  end.

(** [(.*?)\*\*] matched at the head of [s]: the captured text, the shortest
    run of characters other than line terminators that is followed by two
    asterisks. *)
Fixpoint closing (s : string) : option string :=
  if startsWith s "**" then Some EmptyString
  else
    match s with
    | EmptyString => None
    | String c s' =>
        if lineTerminatorAhead s then None
        else option_map (String c) (closing s')
    end.

(** [text.replace(/\*\*(.*?)\*\*/g, '<strong>$1</strong>')]: the matches are
    taken left to right, each search starting where the last match ended.
    [skip] counts the characters of the current match still to pass. *)
Fixpoint bold (skip : nat) (s : string) : string :=
  match s with
  | EmptyString => EmptyString
  | String c s' =>
      match skip with
      | S k => bold k s'
      | O =>
          match stripPrefix "**" s with
          | Some rest =>
              match closing rest with
              | Some captured =>
                  "<strong>" ^^ captured ^^ "</strong>" ^^
                  bold (String.length captured + 3) s'
              | None => String c (bold 0 s')
              end
          | None => String c (bold 0 s')
          end
      end
  end.

(** [text.replace(/\n/g, '<br>')] *)
Fixpoint lineBreaks (s : string) : string :=
  match s with
  | EmptyString => EmptyString
  | String c s' =>
      if Ascii.eqb c "010" then "<br>" ^^ lineBreaks s' else String c (lineBreaks s')
  end.

Definition formatMessage (text : string) : string := lineBreaks (bold 0 text).

(** [div.textContent = text; return div.innerHTML]: the text node is
    serialized with [&], [<], [>] and U+00A0 replaced by their entities. *)
Fixpoint escapeHtml (text : string) : string :=
  match text with
  | EmptyString => EmptyString
  | String c s' =>
      if Ascii.eqb c "&" then "&amp;" ^^ escapeHtml s'
      else if Ascii.eqb c "<" then "&lt;" ^^ escapeHtml s'
      else if Ascii.eqb c ">" then "&gt;" ^^ escapeHtml s'
      else if Ascii.eqb c "194" then
        match s' with
        | String c2 s'' =>
            if Ascii.eqb c2 "160" then "&nbsp;" ^^ escapeHtml s''
            else String c (escapeHtml s')
        | EmptyString => String c EmptyString
        end
      else String c (escapeHtml s')
  end.

(** The text of a span that becomes bold as a whole: no asterisk and no
    line terminator in it. *)
Fixpoint plainSpan (s : string) : bool :=
  match s with
  | EmptyString => true
  | String c s' =>
      negb (Ascii.eqb c "*") && negb (lineTerminatorAhead s) && plainSpan s'
  end.

(** Every [<] of [s] opens one of the tags [formatMessage] writes. *)
Fixpoint onlyFormatTags (s : string) : bool :=
  match s with
  | EmptyString => true
  | String c s' =>
      (negb (Ascii.eqb c "<") ||
       startsWith s "<strong>" || startsWith s "</strong>" || startsWith s "<br>")
      && onlyFormatTags s'
  end.

End Render.

(** ** The transcript *)

(** The node [addUserMessage] or [addAIMessage] makes for a history entry. *)
Definition renderEntry (escapeHtml formatMessage : string -> string) (msg : Message)
  : ChatNode :=
  match role msg with
  | user =>
      {| className := "chat-message user-message";
         innerHTML := messageContent (escapeHtml (content msg)) |}
  | ai =>
      {| className := "chat-message ai-message";
         innerHTML := messageContent (formatMessage (content msg)) |}
  end.

(** Every text [recognizePill] or [generateAIResponse] can produce for a
    record of the catalog. *)
Definition assistantTexts : list string :=
  ([refusalMessage; thanksReply; greetingReply; defaultReply None] ++
   flat_map (fun m =>
               [recognitionMessage m; sideEffectReply m; instructionsReply m;
                identityReply m; foodReply m; missedDoseReply m;
                defaultReply (Some m)])
            catalog)%list.

(** The current medication, when there is one, is a record of the catalog. *)
Definition medicationInCatalog (st : State) : Prop :=
  match currentMedication st with
  | Some m => In m catalog
  | None => True
  end.

(** No pending response callback carries an empty message. *)
Definition pendingNonEmpty (st : State) : Prop :=
  Forall (fun dt : Z * Task =>
            match snd dt with
            | ResponseTimer message => message <> EmptyString
            | _ => True
            end) (timers st).

(** The entries with role [user] are not empty. *)
Definition userEntriesNonEmpty (st : State) : Prop :=
  Forall (fun msg => role msg = user -> content msg <> EmptyString) (conversationHistory st).

(** No upload is in flight: neither a reader nor a recognition timer is
    pending. *)
Definition noUploadPending (st : State) : Prop :=
  Forall (fun dt : Z * Task =>
            match snd dt with
            | ResponseTimer _ => True
            | _ => False
            end) (timers st).

(** The event carries no image. *)
Definition carriesNoImage (e : Event) : Prop :=
  match e with
  | FileInputChange (Some f) | Drop (Some f) => startsWith (type f) "image/" = false
  | _ => True
  end.

(** An image file. *)
Definition pillPhoto : File :=
  {| type := "image/png"; dataURL := "data:image/png;base64,iVBORw0KGgo=" |}.

(** ** More on the start-up script *)

(** A value made of underscores only (the empty value among them). *)
Fixpoint onlyUnderscores (s : string) : bool :=
  match s with
  | EmptyString => true
  | String c s' => Ascii.eqb c "_" && onlyUnderscores s'
  end.

(** ** The dashboard chat (the script "Dashboard Logic with AI Backend
    Integration")

    The page has a chat box, an input and a send button; a message is sent
    to the backend with [fetch] and the answer is shown.  The backend's
    answer, the clock and the signed-in user are inputs of the model. *)

Module Dashboard.

Record User := { email : string }.

(** A child of the chat box: a message ([className], the avatar's text, the
    [p] elements and the time line of its content) or the typing
    indicator, the one element with id [typing-indicator]. *)
Inductive Node :=
| MessageNode (className avatar : string) (paragraphs : list string) (time : string)
| TypingIndicator.

Record State := {
  currentUser : option User;
  userEmail_text : string;
  location : option string;
  chatMessages : list Node;
  scrollTop : Z;
  chatInput_value : string;
  chatInput_disabled : bool;
  chatInput_focused : bool;
  sendBtn_disabled : bool;
  inFlight : list string
}.
(* [inFlight] holds the messages whose submit handler is suspended at its
   [await]; [location] is the last value given to [window.location.href]. *)

(** What the awaited [sendMessage] gives back: the parsed body, or a throw
    (no connection, a status that is not ok, a body that is not JSON). *)
Inductive Data :=
| JNull
| JValue (response : option string) (is_refused : bool).

Inductive Fetched :=
| Failed
| Json (data : Data).

Definition M (A : Type) : Type := State -> Completion A * State.

Definition unit_ {A} (a : A) : M A := fun st => (Normal a, st).
Definition raise {A} : M A := fun st => (Throw, st).
Definition seq {A B} (c : M A) (k : A -> M B) : M B :=
  fun st =>
    match c st with
    | (Normal a, st') => k a st'
    | (Throw, st') => (Throw, st')
    end.
Definition read {A} (f : State -> A) : M A := fun st => (Normal (f st), st).
Definition write (f : State -> State) : M unit := fun st => (Normal tt, f st).

(** [try { c } catch { h }] *)
Definition tryCatch {A} (c h : M A) : M A :=
  fun st =>
    match c st with
    | (Throw, st') => h st'
    | done => done
    end.

(** [... finally { f }] *)
Definition finally {A} (c : M A) (f : M unit) : M A :=
  fun st =>
    match c st with
    | (r, st') =>
        match f st' with
        | (Normal _, st'') => (r, st'')
        | (Throw, st'') => (Throw, st'')
        end
    end.

Declare Scope dash_scope.
Delimit Scope dash_scope with dash.
Notation "x <- c ;; k" := (seq c (fun x => k))
  (at level 100, c at next level, right associativity) : dash_scope.
Notation "c ;; k" := (seq c (fun _ => k))
  (at level 100, right associativity) : dash_scope.

Definition with_chat (f : list Node -> list Node) (st : State) : State :=
  {| currentUser := currentUser st; userEmail_text := userEmail_text st;
     location := location st; chatMessages := f (chatMessages st);
     scrollTop := scrollTop st; chatInput_value := chatInput_value st;
     chatInput_disabled := chatInput_disabled st;
     chatInput_focused := chatInput_focused st;
     sendBtn_disabled := sendBtn_disabled st; inFlight := inFlight st |}.

Definition with_scrollTop (z : Z) (st : State) : State :=
  {| currentUser := currentUser st; userEmail_text := userEmail_text st;
     location := location st; chatMessages := chatMessages st;
     scrollTop := z; chatInput_value := chatInput_value st;
     chatInput_disabled := chatInput_disabled st;
     chatInput_focused := chatInput_focused st;
     sendBtn_disabled := sendBtn_disabled st; inFlight := inFlight st |}.

Definition with_input (v : string) (st : State) : State :=
  {| currentUser := currentUser st; userEmail_text := userEmail_text st;
     location := location st; chatMessages := chatMessages st;
     scrollTop := scrollTop st; chatInput_value := v;
     chatInput_disabled := chatInput_disabled st;
     chatInput_focused := chatInput_focused st;
     sendBtn_disabled := sendBtn_disabled st; inFlight := inFlight st |}.

(** [sendBtn.disabled = b; chatInput.disabled = b] *)
Definition with_disabled (b : bool) (st : State) : State :=
  {| currentUser := currentUser st; userEmail_text := userEmail_text st;
     location := location st; chatMessages := chatMessages st;
     scrollTop := scrollTop st; chatInput_value := chatInput_value st;
     chatInput_disabled := b;
     chatInput_focused := chatInput_focused st;
     sendBtn_disabled := b; inFlight := inFlight st |}.

Definition with_focus (st : State) : State :=
  {| currentUser := currentUser st; userEmail_text := userEmail_text st;
     location := location st; chatMessages := chatMessages st;
     scrollTop := scrollTop st; chatInput_value := chatInput_value st;
     chatInput_disabled := chatInput_disabled st;
     chatInput_focused := true;
     sendBtn_disabled := sendBtn_disabled st; inFlight := inFlight st |}.

Definition with_inFlight (f : list string -> list string) (st : State) : State :=
  {| currentUser := currentUser st; userEmail_text := userEmail_text st;
     location := location st; chatMessages := chatMessages st;
     scrollTop := scrollTop st; chatInput_value := chatInput_value st;
     chatInput_disabled := chatInput_disabled st;
     chatInput_focused := chatInput_focused st;
     sendBtn_disabled := sendBtn_disabled st; inFlight := f (inFlight st) |}.

Definition with_location (url : string) (st : State) : State :=
  {| currentUser := currentUser st; userEmail_text := userEmail_text st;
     location := Some url; chatMessages := chatMessages st;
     scrollTop := scrollTop st; chatInput_value := chatInput_value st;
     chatInput_disabled := chatInput_disabled st;
     chatInput_focused := chatInput_focused st;
     sendBtn_disabled := sendBtn_disabled st; inFlight := inFlight st |}.

Definition with_user (u : User) (st : State) : State :=
  {| currentUser := Some u; userEmail_text := email u;
     location := location st; chatMessages := chatMessages st;
     scrollTop := scrollTop st; chatInput_value := chatInput_value st;
     chatInput_disabled := chatInput_disabled st;
     chatInput_focused := chatInput_focused st;
     sendBtn_disabled := sendBtn_disabled st; inFlight := inFlight st |}.

(** [content.split('\n\n')]: the pieces between the occurrences of two line
    feeds, found left to right. *)
Fixpoint splitParagraphs (s : string) : list string :=
  match s with
  | EmptyString => [EmptyString]
  | String c s' =>
      match s' with
      | String c2 s'' =>
          if Ascii.eqb c "010" && Ascii.eqb c2 "010" then EmptyString :: splitParagraphs s''
          else
            match splitParagraphs s' with
            | [] => [String c EmptyString]
            | p :: ps => String c p :: ps
            end
      | EmptyString => [String c EmptyString]
      end
  end.

(** [pieces.join('\n\n')] *)
Fixpoint joinParagraphs (ps : list string) : string :=
  match ps with
  | [] => EmptyString
  | [p] => p
  | p :: ps' => p ^^ LF ^^ LF ^^ joinParagraphs ps'
  end.

Definition apology : string :=
  "Sorry, I encountered an error. Please make sure the AI backend is running and try again.".

Section Script.

(** The engine's [trim]; [initialOf email] is [email[0].toUpperCase()],
    [None] when the address is empty and [email[0]] is [undefined]; the
    layout's [scrollHeight]. *)
Variable trim : string -> string.
Variable initialOf : string -> option string.
Variable scrollHeight : list Node -> Z.

Local Open Scope dash_scope.

Definition scrollToBottom : M unit :=
  write (fun st => with_scrollTop (scrollHeight (chatMessages st)) st).

(** The [div] that [addMessage] builds: its class, the avatar, a [p] for
    every piece of [content.split('\n\n')] that [trim] does not empty, and
    the time line. *)
Definition messageDiv (text : string) (isUser : bool) (avatar now : string) : Node :=
  MessageNode (if isUser then "chat-message user-message" else "chat-message ai-message")
              avatar
              (List.filter (fun p => negb (isEmpty (trim p))) (splitParagraphs text))
              now.

(** [addMessage(content, isUser, showDisclaimer)]; [content] is [None] when
    the caller passes [undefined], and [now] is the time line
    [toLocaleTimeString] gives.  [showDisclaimer] is not used. *)
Definition addMessage (content : option string) (isUser showDisclaimer : bool)
    (now : string) : M unit :=
  avatar <- (if isUser then
               user <- read currentUser ;;
               match user with
               | Some u =>
                   match initialOf (email u) with
                   | Some a => unit_ a
                   | None => raise
                   end
               | None => raise
               end
             else unit_ "AI") ;;
  match content with
  | None => raise
  | Some text =>
      write (with_chat (fun c => (c ++ [messageDiv text isUser avatar now])%list)) ;;
      scrollToBottom
  end.

Definition showTypingIndicator : M unit :=
  write (with_chat (fun c => (c ++ [TypingIndicator])%list)) ;;
  scrollToBottom.

(** The list without its first typing indicator. *)
Fixpoint removeFirstIndicator (c : list Node) : list Node :=
  match c with
  | [] => []
  | TypingIndicator :: c' => c'
  | n :: c' => n :: removeFirstIndicator c'
  end.

(** [getElementById('typing-indicator')], removed when found. *)
Definition removeTypingIndicator : M unit := write (with_chat removeFirstIndicator).

(** The submit handler up to its [await]. *)
Definition submitStart (now : string) : M unit :=
  input <- read chatInput_value ;;
  let message := trim input in
  if isEmpty message then unit_ tt
  else
    addMessage (Some message) true false now ;;
    write (with_input EmptyString) ;;
    write (with_disabled true) ;;
    showTypingIndicator ;;
    write (with_inFlight (fun q => (q ++ [message])%list)).

(** The submit handler from its [await] on: [try], [catch], [finally]. *)
Definition submitSettle (fetched : Fetched) (now : string) : M unit :=
  finally
    (tryCatch
       (match fetched with
        | Failed => raise
        | Json data =>
            removeTypingIndicator ;;
            match data with
            | JNull => raise
            | JValue response is_refused =>
                if is_refused then addMessage response false false now
                else addMessage response false true now
            end
        end)
       (removeTypingIndicator ;;
        addMessage (Some apology) false false now))
    (write (with_disabled false) ;;
     write with_focus).

(** [checkAuth] once [getSession] has answered. *)
Definition checkAuth (session : option User) : M unit :=
  match session with
  | None => write (with_location "login.html")
  | Some u => write (with_user u)
  end.

Inductive Event :=
| AuthChecked (session : option User)
| SignOut
| Typed (text : string)
| Submit (now : string)
| Settled (fetched : Fetched) (now : string).

Definition handle (e : Event) : M unit :=
  match e with
  | AuthChecked session => checkAuth session
  | SignOut => write (with_location "login.html")
  | Typed text => write (with_input text)
  | Submit now => submitStart now
  | Settled fetched now =>
      q <- read inFlight ;;
      match q with
      | [] => unit_ tt
      | _ :: q' => write (with_inFlight (fun _ => q')) ;; submitSettle fetched now
      end
  end.

Definition step (st : State) (e : Event) : State := snd (handle e st).

Definition run (st : State) (es : list Event) : State := fold_left step es st.

End Script.

(** [email[0].toUpperCase()] on ASCII addresses. *)
Definition asciiInitial (address : string) : option string :=
  match address with
  | EmptyString => None
  | String c _ =>
      let n := N_of_ascii c in
      Some (String (if ((97 <=? n) && (n <=? 122))%N then ascii_of_N (n - 32) else c)
                   EmptyString)
  end.

(** The state of a freshly loaded dashboard. *)
Definition initial : State :=
  {| currentUser := None; userEmail_text := EmptyString; location := None;
     chatMessages := []; scrollTop := 0; chatInput_value := EmptyString;
     chatInput_disabled := false; chatInput_focused := false;
     sendBtn_disabled := false; inFlight := [] |}.

(** A message node has no blank paragraph and no paragraph with a blank
    line in it. *)
Definition tidy (trim : string -> string) (n : Node) : Prop :=
  match n with
  | MessageNode _ _ paragraphs _ =>
      Forall (fun p => trim p <> EmptyString /\ includes p (LF ^^ LF) = false) paragraphs
  | TypingIndicator => True
  end.

Definition isIndicator (n : Node) : bool :=
  match n with TypingIndicator => true | _ => false end.

(** How many typing indicators the chat shows. *)
Definition indicators (c : list Node) : nat := length (List.filter isIndicator c).

(** The text the assistant's node shows once the request has settled: the
    [response] string of the body, or the apology. *)
Definition shownText (fetched : Fetched) : string :=
  match fetched with
  | Json (JValue (Some text) _) => text
  | _ => apology
  end.

(** A signed-in user who has typed a question. *)
Definition asking : State :=
  {| currentUser := Some {| email := "ana@example.org" |};
     userEmail_text := "ana@example.org"; location := None;
     chatMessages := []; scrollTop := 0;
     chatInput_value := "Can I take aspirin with food?";
     chatInput_disabled := false; chatInput_focused := true;
     sendBtn_disabled := false; inFlight := [] |}.

End Dashboard.

(** * Properties *)

(** ** Substring search *)

Section StringFacts.

Lemma append_nil_r (s : string) : s ^^ "" = s.
Proof. induction s as [|c s IH]; simpl; [reflexivity | now rewrite IH]. Qed.

Lemma append_assoc (a b c : string) : (a ^^ b) ^^ c = a ^^ (b ^^ c).
Proof. induction a as [|x a IH]; simpl; [reflexivity | now rewrite IH]. Qed.

Lemma stripPrefix_spec (p s r : string) : stripPrefix p s = Some r <-> s = p ^^ r.
Proof.
  revert s; induction p as [|a p IH]; intros s; simpl.
  - split; [now intros [= ->] | now intros ->].
  - destruct s as [|b s]; [split; discriminate |].
    destruct (Ascii.eqb_spec a b) as [-> | Hne].
    + rewrite IH. split; [now intros -> | now intros [= ->]].
    + split; [discriminate | intros [= E _]; now destruct Hne].
Qed.

Lemma stripPrefix_app (p r : string) : stripPrefix p (p ^^ r) = Some r.
Proof. now apply stripPrefix_spec. Qed.

Lemma startsWith_spec (s t : string) : startsWith s t = true <-> exists q, s = t ^^ q.
Proof.
  unfold startsWith. destruct (stripPrefix t s) as [r|] eqn:E.
  - apply stripPrefix_spec in E. split; eauto.
  - split; [discriminate |]. intros [q ->]. now rewrite stripPrefix_app in E.
Qed.

(** [includes] decides occurrence as a substring. *)
Lemma includes_spec (s t : string) :
  includes s t = true <-> exists p q, s = p ^^ t ^^ q.
Proof.
  induction s as [|c s IH]; simpl.
  - rewrite orb_false_r, startsWith_spec. split.
    + intros [q E]. now exists "", q.
    + intros [p [q E]]. destruct p; simpl in E; [eauto | discriminate].
  - rewrite orb_true_iff, startsWith_spec, IH. split.
    + intros [[q E] | [p [q E]]].
      * now exists "", q.
      * exists (String c p), q. simpl. now rewrite E.
    + intros [p [q E]]. destruct p as [|c' p]; simpl in E.
      * left. eauto.
      * right. injection E as _ E. eauto.
Qed.

Lemma includes_mid (p t q : string) : includes (p ^^ t ^^ q) t = true.
Proof. apply includes_spec. eauto. Qed.

Lemma includes_self (t : string) : includes t t = true.
Proof. apply includes_spec. exists "", "". simpl. now rewrite append_nil_r. Qed.

Lemma includes_app_l (s p t : string) : includes s t = true -> includes (p ^^ s) t = true.
Proof.
  rewrite !includes_spec. intros [a [b ->]].
  exists (p ^^ a), b. now rewrite append_assoc.
Qed.

Lemma includes_app_r (s q t : string) : includes s t = true -> includes (s ^^ q) t = true.
Proof.
  rewrite !includes_spec. intros [a [b ->]].
  exists a, (b ^^ q). now rewrite !append_assoc.
Qed.

(** A longer keyword brings its own substrings with it. *)
Lemma includes_trans (s t u : string) :
  includes s t = true -> includes t u = true -> includes s u = true.
Proof.
  rewrite !includes_spec. intros [a [b ->]] [c [d ->]].
  exists (a ^^ c), (d ^^ b). now rewrite !append_assoc.
Qed.

End StringFacts.

(** ** The response engine *)

Lemma isDangerous_true (lowerMessage : string) :
  isDangerous lowerMessage = true <->
  includes lowerMessage "dosage change" = true \/
  includes lowerMessage "stop taking" = true \/
  includes lowerMessage "instead of" = true \/
  includes lowerMessage "replace" = true.
Proof. unfold isDangerous. rewrite !orb_true_iff. tauto. Qed.

Section Engine.

Variable toLowerCase : string -> string.

Ltac run_js :=
  unfold generateAIResponse, generalResponse, bind, gets, ret.

Ltac split_ifs :=
  repeat match goal with
         | |- context [if ?b then _ else _] => destruct b eqn:?
         end.

(** The engine always completes, and hands back the state it was given. *)
Lemma generateAIResponse_pure (userMessage : string) (st : State) :
  exists reply, generateAIResponse toLowerCase userMessage st = (Normal reply, st).
Proof.
  run_js. split_ifs; cbv beta iota; destruct (currentMedication st);
    split_ifs; eexists; reflexivity.
Qed.

(** Past the guard and the context-aware block, the reply is a general one. *)
Lemma generalResponse_cases (lowerMessage : string) (st : State) :
  generalResponse lowerMessage st =
    (Normal (if includes lowerMessage "thank" then thanksReply
             else if includes lowerMessage "hello" || includes lowerMessage "hi"
                  then greetingReply
                  else defaultReply (currentMedication st)), st).
Proof. run_js. split_ifs; reflexivity. Qed.

(** The nested conditionals of the context-aware block are the first-match
    evaluation of the rule table. *)
Lemma context_block_firstMatch (userMessage : string) (st : State) (m : Medication) :
  currentMedication st = Some m ->
  isDangerous (toLowerCase userMessage) = false ->
  generateAIResponse toLowerCase userMessage st =
    match firstMatch (toLowerCase userMessage) contextRules with
    | Some template => (Normal (template m), st)
    | None => generalResponse (toLowerCase userMessage) st
    end.
Proof.
  intros Hm Hsafe. unfold generateAIResponse, bind, gets. rewrite Hsafe, Hm.
  unfold firstMatch, contextRules, ruleMatches, find, existsb, fst.
  set (l := toLowerCase userMessage).
  repeat match goal with
         | |- context [includes l ?k] => destruct (includes l k) eqn:?; simpl
         end; reflexivity.
Qed.

Lemma no_medication_general (userMessage : string) (st : State) :
  currentMedication st = None ->
  isDangerous (toLowerCase userMessage) = false ->
  generateAIResponse toLowerCase userMessage st =
    generalResponse (toLowerCase userMessage) st.
Proof.
  intros Hm Hsafe. unfold generateAIResponse, bind, gets. now rewrite Hsafe, Hm.
Qed.

End Engine.

(** C1.  Whenever the lowercased utterance contains one of "dosage change",
    "stop taking", "instead of" or "replace", [generateAIResponse] returns
    the fixed refusal message: in every state (a medication recognized or
    not), whatever other keywords the utterance contains. *)
Theorem refusal_takes_precedence
    (toLowerCase : string -> string) (userMessage : string) (st : State) :
  includes (toLowerCase userMessage) "dosage change" = true \/
  includes (toLowerCase userMessage) "stop taking" = true \/
  includes (toLowerCase userMessage) "instead of" = true \/
  includes (toLowerCase userMessage) "replace" = true ->
  generateAIResponse toLowerCase userMessage st = (Normal refusalMessage, st).
Proof.
  intros H. apply isDangerous_true in H.
  unfold generateAIResponse. now rewrite H.
Qed.

(** The specification's own example: the utterance also matches the food
    rule, and a medication is recognized. *)
Lemma refusal_takes_precedence_witness :
  (includes (asciiLower "What if I stop taking and replace it with food timing") "dosage change" = true \/
   includes (asciiLower "What if I stop taking and replace it with food timing") "stop taking" = true \/
   includes (asciiLower "What if I stop taking and replace it with food timing") "instead of" = true \/
   includes (asciiLower "What if I stop taking and replace it with food timing") "replace" = true) /\
  includes (asciiLower "What if I stop taking and replace it with food timing") "food" = true /\
  generateAIResponse asciiLower "What if I stop taking and replace it with food timing" lisinoprilState
    = (Normal refusalMessage, lisinoprilState).
Proof.
  split; [right; left; reflexivity |].
  split; [reflexivity |].
  apply (refusal_takes_precedence asciiLower
           "What if I stop taking and replace it with food timing" lisinoprilState).
  right; left; reflexivity.
Defined.

(** The four replies that do not depend on a template are not a templated
    context reply of any catalog record. *)
Lemma fixed_reply_not_templated (reply : string) (m : Medication) :
  In reply [refusalMessage; thanksReply; greetingReply; defaultReply None] ->
  In m catalog ->
  ~ In reply (contextReplies m).
Proof.
  intros Hr Hm Hin.
  assert (E : existsb (String.eqb reply) (contextReplies m) = true).
  { apply existsb_exists. exists reply. split; [exact Hin | apply String.eqb_refl]. }
  revert E. clear Hin.
  simpl in Hr, Hm.
  destruct Hr as [<- | [<- | [<- | [<- | []]]]];
    destruct Hm as [<- | [<- | [<- | []]]];
    vm_compute; discriminate.
Qed.

(** C2, as the script has it.  With no current medication none of the
    context-dependent rules fire: the reply is the refusal, the gratitude
    reply, the greeting or the fallback without a name, never a templated
    reply of a catalog record.  For "what is this" the reply is the
    greeting, since "this" contains "hi". *)
Theorem no_context_rule_without_medication
    (toLowerCase : string -> string) (userMessage : string) (st : State) :
  currentMedication st = None ->
  (exists reply,
      generateAIResponse toLowerCase userMessage st = (Normal reply, st) /\
      In reply [refusalMessage; thanksReply; greetingReply; defaultReply None] /\
      forall m, In m catalog -> ~ In reply (contextReplies m)) /\
  generateAIResponse asciiLower "what is this" st = (Normal greetingReply, st).
Proof.
  intros Hm. split.
  - assert (exists reply,
        generateAIResponse toLowerCase userMessage st = (Normal reply, st) /\
        In reply [refusalMessage; thanksReply; greetingReply; defaultReply None])
      as [reply [E Hin]].
    { destruct (isDangerous (toLowerCase userMessage)) eqn:Hd.
      - exists refusalMessage. split; [| simpl; tauto].
        unfold generateAIResponse. now rewrite Hd.
      - rewrite (no_medication_general _ _ _ Hm Hd), generalResponse_cases, Hm.
        eexists. split; [reflexivity |].
        destruct (includes _ "thank"); [simpl; tauto |].
        destruct (includes _ "hello" || includes _ "hi"); simpl; tauto. }
    exists reply. repeat split; try assumption.
    intros m. now apply fixed_reply_not_templated.
  - rewrite (no_medication_general asciiLower "what is this" st Hm eq_refl).
    now rewrite generalResponse_cases.
Qed.

Lemma no_context_rule_without_medication_witness :
  currentMedication (initialState emptyPage) = None /\
  generateAIResponse asciiLower "what is this" (initialState emptyPage)
    = (Normal greetingReply, initialState emptyPage).
Proof.
  split; [reflexivity |].
  apply (no_context_rule_without_medication asciiLower "what is this"
           (initialState emptyPage) eq_refl).
Defined.

(** C2 as stated fails: with no current medication, "what is this" does not
    get the fallback message. *)
Lemma what_is_this_is_not_fallback :
  currentMedication (initialState emptyPage) = None /\
  generateAIResponse asciiLower "what is this" (initialState emptyPage)
    <> (Normal (defaultReply None), initialState emptyPage).
Proof.
  split; [reflexivity |]. vm_compute. discriminate.
Qed.

(** C3, as the script has it.  With Lisinopril as current medication, an
    utterance whose lowercased form contains "side effect" and no refusal
    trigger gets a reply that contains "Dizziness, dry cough, headache". *)
Theorem lisinopril_side_effects
    (toLowerCase : string -> string) (userMessage : string) (st : State) :
  currentMedication st = Some lisinopril ->
  includes (toLowerCase userMessage) "side effect" = true ->
  isDangerous (toLowerCase userMessage) = false ->
  exists reply,
    generateAIResponse toLowerCase userMessage st = (Normal reply, st) /\
    includes reply "Dizziness, dry cough, headache" = true.
Proof.
  intros Hm Hside Hsafe.
  exists (sideEffectReply lisinopril). split; [| reflexivity].
  rewrite (context_block_firstMatch _ _ _ _ Hm Hsafe).
  unfold firstMatch, contextRules, find, ruleMatches, existsb, fst.
  now rewrite Hside.
Qed.

Lemma lisinopril_side_effects_witness :
  currentMedication lisinoprilState = Some lisinopril /\
  includes (asciiLower "What are the Side Effects?") "side effect" = true /\
  isDangerous (asciiLower "What are the Side Effects?") = false /\
  exists reply,
    generateAIResponse asciiLower "What are the Side Effects?" lisinoprilState
      = (Normal reply, lisinoprilState) /\
    includes reply "Dizziness, dry cough, headache" = true.
Proof.
  split; [reflexivity |]. split; [reflexivity |]. split; [reflexivity |].
  apply (lisinopril_side_effects asciiLower "What are the Side Effects?" lisinoprilState);
    reflexivity.
Defined.

(** C3 as stated fails: the utterance contains "side effect" and Lisinopril
    is the current medication, yet the reply is the refusal, which does not
    contain the side-effect text. *)
Lemma side_effect_with_refusal_trigger :
  currentMedication lisinoprilState = Some lisinopril /\
  includes (asciiLower "any side effects if I stop taking it?") "side effect" = true /\
  generateAIResponse asciiLower "any side effects if I stop taking it?" lisinoprilState
    = (Normal refusalMessage, lisinoprilState) /\
  includes refusalMessage "Dizziness, dry cough, headache" = false.
Proof. repeat split; reflexivity. Qed.

(** C4.  With a current medication and no refusal trigger, the reply is the
    template of the first rule that matches, in the order side-effect,
    instructions, identity, food, missed-dose, filled in from the current
    record; so an utterance with "side effect" gets the side-effect reply,
    whatever later rule ("food", say) it also matches. *)
Theorem context_rules_first_match
    (toLowerCase : string -> string) (userMessage : string) (st : State)
    (m : Medication) :
  currentMedication st = Some m ->
  isDangerous (toLowerCase userMessage) = false ->
  (forall template,
      firstMatch (toLowerCase userMessage) contextRules = Some template ->
      generateAIResponse toLowerCase userMessage st = (Normal (template m), st)) /\
  (includes (toLowerCase userMessage) "side effect" = true ->
   generateAIResponse toLowerCase userMessage st = (Normal (sideEffectReply m), st)).
Proof.
  intros Hm Hsafe.
  pose proof (context_block_firstMatch toLowerCase userMessage st m Hm Hsafe) as E.
  split.
  - intros template Hfirst. now rewrite E, Hfirst.
  - intros Hside. rewrite E.
    unfold firstMatch, contextRules, find, ruleMatches, existsb, fst.
    now rewrite Hside.
Qed.

Lemma context_rules_first_match_witness :
  currentMedication lisinoprilState = Some lisinopril /\
  isDangerous (asciiLower "Side effects with food?") = false /\
  includes (asciiLower "Side effects with food?") "food" = true /\
  generateAIResponse asciiLower "Side effects with food?" lisinoprilState
    = (Normal (sideEffectReply lisinopril), lisinoprilState) /\
  generateAIResponse asciiLower "Can I eat before it? I forgot" lisinoprilState
    = (Normal (foodReply lisinopril), lisinoprilState).
Proof.
  split; [reflexivity |]. split; [reflexivity |]. split; [reflexivity |].
  split.
  - apply (context_rules_first_match asciiLower "Side effects with food?"
             lisinoprilState lisinopril); reflexivity.
  - apply (proj1 (context_rules_first_match asciiLower "Can I eat before it? I forgot"
                    lisinoprilState lisinopril eq_refl eq_refl) foodReply).
    reflexivity.
Defined.

(** C10, as the script has it.  Matching is substring containment: when the
    lowercased utterance contains "hi" (inside "this", say) and no refusal
    trigger, no context-dependent rule fires and "thank" does not occur,
    the reply is the greeting and not the fallback. *)
Theorem hi_inside_a_word_greets
    (toLowerCase : string -> string) (userMessage : string) (st : State) :
  includes (toLowerCase userMessage) "hi" = true ->
  isDangerous (toLowerCase userMessage) = false ->
  currentMedication st = None \/
    firstMatch (toLowerCase userMessage) contextRules = None ->
  includes (toLowerCase userMessage) "thank" = false ->
  generateAIResponse toLowerCase userMessage st = (Normal greetingReply, st) /\
  greetingReply <> defaultReply (currentMedication st).
Proof.
  intros Hhi Hsafe Hctx Hthank. split.
  - assert (generateAIResponse toLowerCase userMessage st =
            generalResponse (toLowerCase userMessage) st) as ->.
    { destruct (currentMedication st) as [m|] eqn:Hm.
      - destruct Hctx as [? | Hnone]; [discriminate |].
        now rewrite (context_block_firstMatch _ _ _ _ Hm Hsafe), Hnone.
      - now apply no_medication_general. }
    rewrite generalResponse_cases, Hthank, Hhi, orb_true_r. reflexivity.
  - destruct (currentMedication st); discriminate.
Qed.

Lemma hi_inside_a_word_greets_witness :
  includes (asciiLower "Is this on?") "hi" = true /\
  includes (asciiLower "Is this on?") "hello" = false /\
  generateAIResponse asciiLower "Is this on?" lisinoprilState
    = (Normal greetingReply, lisinoprilState) /\
  greetingReply <> defaultReply (currentMedication lisinoprilState).
Proof.
  split; [reflexivity |]. split; [reflexivity |].
  apply (hi_inside_a_word_greets asciiLower "Is this on?" lisinoprilState);
    [reflexivity | reflexivity | right; reflexivity | reflexivity].
Defined.

(** C10 as stated fails: "thanks for this" contains "hi" inside "this", no
    refusal trigger, and matches no context-dependent rule, yet the reply is
    the gratitude reply, not the greeting. *)
Lemma thanks_for_this_is_not_greeted :
  includes (asciiLower "thanks for this") "hi" = true /\
  isDangerous (asciiLower "thanks for this") = false /\
  firstMatch (asciiLower "thanks for this") contextRules = None /\
  generateAIResponse asciiLower "thanks for this" (initialState emptyPage)
    = (Normal thanksReply, initialState emptyPage) /\
  generateAIResponse asciiLower "thanks for this" lisinoprilState
    = (Normal thanksReply, lisinoprilState) /\
  thanksReply <> greetingReply.
Proof. repeat split; try reflexivity. discriminate. Qed.

(** ** Binary64 arithmetic: the index [Math.floor(Math.random() * 3)]

    [SFmul] rounds the exact product to nearest-even.  The lemmas below
    follow the rounding through [binary_round_aux]: the mantissa is shifted
    right by [n] bits and may be incremented once, so the rounded value
    exceeds the exact one by at most half a unit of the last place, which
    is not enough to reach 3 from below the largest number under 1. *)

Section Binary64.

Lemma digits2_pos_size (p : positive) : digits2_pos p = Pos.size p.
Proof. induction p; simpl; congruence. Qed.

Lemma digits_upper (p : positive) (n : Z) :
  0 <= n -> Zpos p < 2 ^ n -> Zpos (digits2_pos p) <= n.
Proof.
  intros Hn Hlt. rewrite digits2_pos_size.
  assert (H : 2 ^ Zpos (Pos.size p) <= 2 * Zpos p).
  { pose proof (Pos.size_le p) as H.
    apply Pos2Z.pos_le_pos in H. rewrite Pos2Z.inj_pow in H. exact H. }
  destruct (Z_le_gt_dec (Zpos (Pos.size p)) n) as [|Hgt]; [assumption | exfalso].
  assert (2 ^ (n + 1) <= 2 ^ Zpos (Pos.size p)) by (apply Z.pow_le_mono_r; lia).
  rewrite Z.pow_add_r in H0 by lia. change (2^1) with 2 in H0. lia.
Qed.

Lemma digits_lower (p : positive) : Zpos p < 2 ^ Zpos (digits2_pos p).
Proof.
  rewrite digits2_pos_size. pose proof (Pos.size_gt p) as H.
  apply Pos2Z.pos_lt_pos in H. now rewrite Pos2Z.inj_pow in H.
Qed.

Lemma shr_1_spec (mrs : shr_record) :
  0 <= shr_m mrs ->
  shr_m (shr_1 mrs) = shr_m mrs / 2 /\ shr_r (shr_1 mrs) = Z.odd (shr_m mrs).
Proof.
  destruct mrs as [m r s]. simpl. intros Hm.
  destruct m as [|[p|p|]|p]; simpl; try lia; split; try reflexivity.
  - rewrite Pos2Z.inj_xI. apply Z.div_unique with 1; lia.
  - rewrite Pos2Z.inj_xO. apply Z.div_unique with 0; lia.
Qed.

Lemma shr_iter_spec (p : positive) :
  forall mrs : shr_record,
    0 <= shr_m mrs ->
    shr_m (SpecFloat.iter_pos shr_1 p mrs) = shr_m mrs / 2 ^ Zpos p /\
    shr_r (SpecFloat.iter_pos shr_1 p mrs) = Z.odd (shr_m mrs / 2 ^ (Zpos p - 1)).
Proof.
  induction p as [p IH | p IH |]; intros mrs Hm; cbn [SpecFloat.iter_pos].
  - destruct (shr_1_spec mrs Hm) as [E1 _].
    assert (H1 : 0 <= shr_m (shr_1 mrs)) by (rewrite E1; apply Z.div_pos; lia).
    destruct (IH _ H1) as [E2 _].
    assert (H2 : 0 <= shr_m (SpecFloat.iter_pos shr_1 p (shr_1 mrs)))
      by (rewrite E2; apply Z.div_pos; [lia | apply Z.pow_pos_nonneg; lia]).
    destruct (IH _ H2) as [E3 R3]. rewrite E3, R3, E2, E1.
    assert (0 < 2 ^ Zpos p) by (apply Z.pow_pos_nonneg; lia).
    assert (0 < 2 ^ (Zpos p - 1)) by (apply Z.pow_pos_nonneg; lia).
    rewrite !Z.div_div by lia.
    replace (2 ^ Zpos p~1) with (2 * 2 ^ Zpos p * 2 ^ Zpos p)
      by (rewrite Pos2Z.inj_xI, <- !Z.pow_succ_r, <- Z.pow_add_r by lia; f_equal; lia).
    replace (2 ^ (Zpos p~1 - 1)) with (2 * 2 ^ Zpos p * 2 ^ (Zpos p - 1))
      by (rewrite Pos2Z.inj_xI, <- !Z.pow_succ_r, <- Z.pow_add_r by lia; f_equal; lia).
    split; [f_equal; ring | do 2 f_equal; ring].
  - destruct (IH _ Hm) as [E2 _].
    assert (H2 : 0 <= shr_m (SpecFloat.iter_pos shr_1 p mrs))
      by (rewrite E2; apply Z.div_pos; [lia | apply Z.pow_pos_nonneg; lia]).
    destruct (IH _ H2) as [E3 R3]. rewrite E3, R3, E2.
    assert (0 < 2 ^ Zpos p) by (apply Z.pow_pos_nonneg; lia).
    assert (0 < 2 ^ (Zpos p - 1)) by (apply Z.pow_pos_nonneg; lia).
    rewrite !Z.div_div by lia.
    replace (2 ^ Zpos p~0) with (2 ^ Zpos p * 2 ^ Zpos p)
      by (rewrite Pos2Z.inj_xO, <- Z.pow_add_r by lia; f_equal; lia).
    replace (2 ^ (Zpos p~0 - 1)) with (2 ^ Zpos p * 2 ^ (Zpos p - 1))
      by (rewrite Pos2Z.inj_xO, <- Z.pow_add_r by lia; f_equal; lia).
    split; [f_equal; ring | do 2 f_equal; ring].
  - destruct (shr_1_spec mrs Hm) as [E1 R1]. rewrite E1, R1.
    change (2 ^ 1) with 2. change (2 ^ (1 - 1)) with 1. now rewrite Z.div_1_r.
Qed.

Lemma round_bounds (mrs : shr_record) :
  shr_m mrs <= round_nearest_even (shr_m mrs) (loc_of_shr_record mrs)
            <= shr_m mrs + (if shr_r mrs then 1 else 0).
Proof.
  destruct mrs as [m [|] [|]]; simpl; try destruct (Z.even m); lia.
Qed.

Lemma shr_exact (M E n : Z) :
  0 <= M ->
  let res := shr (Build_shr_record M false false) E n in
  shr_m (fst res) = M / 2 ^ Z.max 0 n /\
  snd res = E + Z.max 0 n.
Proof.
  intros HM. destruct n as [|p|p]; cbn [shr fst snd shr_m].
  - change (Z.max 0 0) with 0. change (2 ^ 0) with 1. rewrite Z.div_1_r. lia.
  - destruct (shr_iter_spec p (Build_shr_record M false false) HM) as [Em _].
    cbn [shr_m] in Em. replace (Z.max 0 (Zpos p)) with (Zpos p) by lia.
    split; [exact Em | lia].
  - change (Z.max 0 (Zneg p)) with 0. change (2 ^ 0) with 1. rewrite Z.div_1_r. lia.
Qed.

Lemma shr_round (M E n : Z) :
  0 <= M ->
  let res := shr (Build_shr_record M false false) E n in
  let m' := round_nearest_even (shr_m (fst res)) (loc_of_shr_record (fst res)) in
  snd res = E + Z.max 0 n /\
  0 <= m' <= M + 1 /\
  m' * 2 ^ Z.max 0 n <= M + 2 ^ Z.max 0 n / 2.
Proof.
  intros HM. destruct n as [|p|p]; cbn [shr fst snd].
  - change (Z.max 0 0) with 0. change (2 ^ 0) with 1. change (1 / 2) with 0.
    cbn [round_nearest_even loc_of_shr_record shr_m]. lia.
  - pose proof (round_bounds (SpecFloat.iter_pos shr_1 p (Build_shr_record M false false))) as Hr.
    destruct (shr_iter_spec p (Build_shr_record M false false) HM) as [Em Er].
    cbn [shr_m] in Em, Er.
    set (m' := round_nearest_even _ _) in *. clearbody m'.
    rewrite Em, Er in Hr. clear Em Er.
    replace (Z.max 0 (Zpos p)) with (Zpos p) by lia.
    assert (Hh : 0 < 2 ^ (Zpos p - 1)) by (apply Z.pow_pos_nonneg; lia).
    assert (E2 : 2 ^ Zpos p = 2 * 2 ^ (Zpos p - 1)).
    { rewrite <- Z.pow_succ_r by lia. f_equal. lia. }
    set (h := 2 ^ (Zpos p - 1)) in *. rewrite E2 in *.
    replace (2 * h / 2) with h
      by (apply Z.div_unique with 0; lia).
    assert (Eq : M / (2 * h) = M / h / 2)
      by (rewrite Z.div_div by lia; f_equal; lia).
    pose proof (Z.mul_div_le M h Hh) as Hle.
    assert (0 <= M / h) by (apply Z.div_pos; lia).
    pose proof (Z.div_mod (M / h) 2 ltac:(lia)) as Hdm.
    pose proof (Z.mod_pos_bound (M / h) 2 ltac:(lia)) as Hmb.
    rewrite Eq in *. set (q := M / h / 2) in *.
    assert (0 <= q) by (apply Z.div_pos; lia).
    split; [lia |].
    destruct (Z.odd (M / h)) eqn:Hodd.
    + rewrite Z.odd_spec in Hodd. destruct Hodd as [j Hj].
      set (d := M / h) in *.
      assert (q = j) by lia. subst j.
      assert (m' * (2 * h) <= (q + 1) * (2 * h)) by (apply Z.mul_le_mono_nonneg_r; lia).
      assert (q * 1 <= q * h) by (apply Z.mul_le_mono_nonneg_l; lia).
      assert (Hd : h * d = 2 * (q * h) + h) by (rewrite Hj; ring).
      assert ((q + 1) * (2 * h) = 2 * (q * h) + 2 * h) by ring.
      split; [split |]; lia.
    + set (d := M / h) in *.
      assert (m' = q) by lia. subst m'.
      assert (q * 1 <= q * h) by (apply Z.mul_le_mono_nonneg_l; lia).
      pose proof (Z.div_mod d 2 ltac:(lia)) as Hd2.
      pose proof (Z.mod_pos_bound d 2 ltac:(lia)) as Hd3.
      fold q in Hd2.
      assert (h * (2 * q) <= h * d) by (apply Z.mul_le_mono_nonneg_l; lia).
      assert (h * (2 * q) = 2 * (q * h)) by ring.
      assert (q * (2 * h) = 2 * (q * h)) by ring.
      split; [split |]; lia.
  - change (Z.max 0 (Zneg p)) with 0. change (2 ^ 0) with 1. change (1 / 2) with 0.
    cbn [round_nearest_even loc_of_shr_record shr_m]. lia.
Qed.

Lemma fexp_eq (x : Z) : fexp Num.prec Num.emax x = Z.max (x - 53) (-1074).
Proof. reflexivity. Qed.

Lemma Zdigits2_upper (z n : Z) : 0 <= z < 2 ^ n -> 0 <= n -> Zdigits2 z <= n.
Proof.
  intros [Hz Hlt] Hn. destruct z as [|p|p]; simpl; [lia | | lia].
  now apply digits_upper.
Qed.

Lemma bounded_range (m : positive) (e : Z) :
  bounded Num.prec Num.emax m e = true -> Zpos m < 2 ^ 53 /\ -1074 <= e.
Proof.
  unfold bounded, canonical_mantissa. rewrite andb_true_iff, Z.eqb_eq, fexp_eq.
  intros [Hc _]. pose proof (digits_lower m) as Hd.
  assert (2 ^ Zpos (digits2_pos m) <= 2 ^ 53) by (apply Z.pow_le_mono_r; lia).
  lia.
Qed.

Lemma shiftl_below (m e E a c : Z) :
  0 <= m -> 0 <= a -> 0 <= E -> 0 < c ->
  e = a - E ->
  m * 2 ^ a < c * 2 ^ E ->
  0 <= Z.shiftl m e < c.
Proof.
  intros Hm Ha HE Hc -> Hlt. split; [now apply Z.shiftl_nonneg |].
  destruct (Z_le_gt_dec (a - E) 0) as [Hneg | Hpos].
  - rewrite Z.shiftl_div_pow2 by lia.
    assert (0 < 2 ^ (- (a - E))) by (apply Z.pow_pos_nonneg; lia).
    apply Z.div_lt_upper_bound; [lia |].
    assert (0 < 2 ^ a) by (apply Z.pow_pos_nonneg; lia).
    apply Z.mul_lt_mono_pos_r with (p := 2 ^ a); [lia |].
    replace (2 ^ (- (a - E)) * c * 2 ^ a) with (c * 2 ^ E); [exact Hlt |].
    replace E with (- (a - E) + a) at 1 by lia.
    rewrite Z.pow_add_r by lia. ring.
  - rewrite Z.shiftl_mul_pow2 by lia.
    assert (0 < 2 ^ E) by (apply Z.pow_pos_nonneg; lia).
    apply Z.mul_lt_mono_pos_r with (p := 2 ^ E); [lia |].
    replace (m * 2 ^ (a - E) * 2 ^ E) with (m * 2 ^ a); [exact Hlt |].
    replace a with ((a - E) + E) at 1 by lia.
    rewrite Z.pow_add_r by lia. ring.
Qed.

Lemma floor_mul_three (m : positive) (e : Z) :
  bounded Num.prec Num.emax m e = true ->
  e <= -53 ->
  exists z,
    Num.floor (Num.mul (S754_finite false m e) (Num.ofNat 3)) = Some z /\
    0 <= z < 3.
Proof.
  intros Hb He. destruct (bounded_range m e Hb) as [Hm Hemin].
  change (Num.ofNat 3) with (S754_finite false 6755399441055744 (-51)).
  unfold Num.mul, Num.floor, SFmul. cbv [xorb]. unfold binary_round_aux, shr_fexp.
  set (M := (m * 6755399441055744)%positive).
  set (E := e + -51).
  assert (HM : Zpos M = 3 * 2 ^ 51 * Zpos m) by (unfold M; rewrite Pos2Z.inj_mul; lia).
  assert (HM106 : Zpos M < 2 ^ 106) by (rewrite HM; lia).
  change (Zdigits2 (Zpos M)) with (Zpos (digits2_pos M)).
  pose proof (digits_upper M 106 ltac:(lia) HM106) as HdM.
  set (n := fexp Num.prec Num.emax (Zpos (digits2_pos M) + E) - E).
  assert (Hn : Z.max 0 n <= 53) by (unfold n, E; rewrite fexp_eq; lia).
  assert (HEn : -1074 <= E + Z.max 0 n) by (unfold n, E; rewrite fexp_eq; lia).
  cbn [shr_record_of_loc].
  pose proof (shr_round (Zpos M) E n ltac:(lia)) as H1. cbv zeta in H1.
  destruct (shr {| shr_m := Zpos M; shr_r := false; shr_s := false |} E n)
    as [mrs' e'] eqn:S1.
  cbn [fst snd] in H1. destruct H1 as [He' [Hm' Hround]].
  set (m' := round_nearest_even (shr_m mrs') (loc_of_shr_record mrs')) in *.
  clearbody m'.
  set (k := fexp Num.prec Num.emax (Zdigits2 m' + e') - e').
  assert (Hdm' : Zdigits2 m' <= 107)
    by (apply Zdigits2_upper; [change (2 ^ 107) with (2 * 2 ^ 106) | ]; lia).
  assert (Hk : Z.max 0 k <= 54) by (unfold k; rewrite fexp_eq; lia).
  pose proof (shr_exact m' e' k ltac:(lia)) as H2. cbv zeta in H2.
  destruct (shr {| shr_m := m'; shr_r := false; shr_s := false |} e' k)
    as [mrs'' e''] eqn:S2.
  cbn [fst snd] in H2. destruct H2 as [Hm'' He''].
  assert (Hpk : 0 < 2 ^ Z.max 0 k) by (apply Z.pow_pos_nonneg; lia).
  assert (Hpn : 0 < 2 ^ Z.max 0 n) by (apply Z.pow_pos_nonneg; lia).
  assert (Hm''0 : 0 <= shr_m mrs'') by (rewrite Hm''; apply Z.div_pos; lia).
  assert (Hfin : (e'' <=? Num.emax - Num.prec) = true)
    by (apply Z.leb_le; unfold Num.emax, Num.prec, E in *; lia).
  assert (Hsmall : shr_m mrs'' * 2 ^ (Z.max 0 k + Z.max 0 n) < 3 * 2 ^ (51 - e)).
  { rewrite Z.pow_add_r by lia.
    pose proof (Z.mul_div_le m' (2 ^ Z.max 0 k) Hpk) as Hle. rewrite <- Hm'' in Hle.
    assert (shr_m mrs'' * 2 ^ Z.max 0 k * 2 ^ Z.max 0 n <= m' * 2 ^ Z.max 0 n)
      by (apply Z.mul_le_mono_nonneg_r; lia).
    assert (2 ^ Z.max 0 n <= 2 ^ 53) by (apply Z.pow_le_mono_r; lia).
    assert (2 ^ Z.max 0 n / 2 <= 2 ^ 52).
    { apply Z.div_le_upper_bound; [lia |]. change (2 * 2 ^ 52) with (2 ^ 53). lia. }
    assert (2 ^ 53 <= 2 ^ (- e)) by (apply Z.pow_le_mono_r; lia).
    replace (51 - e) with (51 + - e) by lia. rewrite Z.pow_add_r by lia.
    lia. }
  destruct (shr_m mrs'') as [|p|p] eqn:Hres; [| | lia].
  - exists 0. split; [reflexivity | lia].
  - rewrite Hfin. eexists. split; [reflexivity |]. cbn [cond_Zopp].
    apply shiftl_below with (a := Z.max 0 k + Z.max 0 n) (E := 51 - e);
      unfold E in *; lia.
Qed.

End Binary64.

(** ** The conversation state *)

Section Conversation.

Variable toLowerCase : string -> string.
Variable trim : string -> string.
Variable escapeHtml : string -> string.
Variable formatMessage : string -> string.
Variable scrollHeight : list ChatNode -> Z.

Lemma addUserMessage_run (text : string) (st : State) :
  exists st',
    addUserMessage escapeHtml scrollHeight text st = (Normal tt, st') /\
    conversationHistory st' =
      (conversationHistory st ++ [{| role := user; content := text |}])%list /\
    currentMedication st' = currentMedication st /\
    timers st' = timers st.
Proof. eexists. repeat split. Qed.

Lemma addAIMessage_run (text : string) (st : State) :
  exists st',
    addAIMessage formatMessage scrollHeight text st = (Normal tt, st') /\
    conversationHistory st' =
      (conversationHistory st ++ [{| role := ai; content := text |}])%list /\
    currentMedication st' = currentMedication st /\
    timers st' = timers st.
Proof. eexists. repeat split. Qed.

(** The random index is one of the three keys, whatever [Math.random()]
    returned. *)
Lemma random_key (r : spec_float) :
  Num.isRandom r = true ->
  exists key m,
    Num.index (keys medicationDatabase)
      (Num.floor (Num.mul r (Num.ofNat (length (keys medicationDatabase))))) = Some key /\
    getProp medicationDatabase key = Some m /\
    In (key, m) medicationDatabase.
Proof.
  unfold Num.isRandom. rewrite !andb_true_iff. intros [[Hvalid Hpos] Hlt].
  change (length (keys medicationDatabase)) with 3%nat.
  assert (exists z, Num.floor (Num.mul r (Num.ofNat 3)) = Some z /\ 0 <= z < 3)
    as [z [-> Hz]].
  { destruct r as [s | s | | s m e].
    - exists 0. split; [reflexivity | lia].
    - destruct s; discriminate.
    - discriminate.
    - destruct s; [discriminate |].
      apply floor_mul_three; [exact Hvalid |].
      change Num.one with (S754_finite false 4503599627370496 (-52)) in Hlt.
      unfold SFltb, SFcompare in Hlt.
      destruct (e ?= -52) eqn:Hcmp; [| | discriminate Hlt].
      + apply Z.compare_eq in Hcmp. subst e. exfalso.
        destruct (Pos.compare_cont Eq m _) eqn:Hm in Hlt;
          [discriminate Hlt | | discriminate Hlt].
        assert (Hm' : (m < 4503599627370496)%positive) by exact Hm.
        apply Pos2Z.pos_lt_pos in Hm'.
        unfold valid_binary, bounded, canonical_mantissa in Hvalid.
        rewrite andb_true_iff, Z.eqb_eq, fexp_eq in Hvalid.
        pose proof (digits_upper m 52 ltac:(lia) Hm'). clear Hlt Hpos. lia.
      + pose proof (proj1 (Z.compare_lt_iff e (-52)) Hcmp). clear Hlt Hpos Hvalid. lia. }
  assert (z = 0 \/ z = 1 \/ z = 2) as [-> | [-> | ->]] by lia.
  - exists "metformin", metformin. repeat split. simpl. tauto.
  - exists "lisinopril", lisinopril. repeat split. simpl. tauto.
  - exists "aspirin", aspirin. repeat split. simpl. tauto.
Qed.

Lemma includes_head (t q : string) : includes (t ^^ q) t = true.
Proof. apply includes_app_r, includes_self. Qed.

Ltac find_field :=
  repeat first [ apply includes_head | apply includes_mid | apply includes_app_l ].

(** C5.  Whatever number in [0, 1) [Math.random()] returns, [recognizePill]
    completes, picks an entry of the three-entry catalog, makes it the
    current medication and appends exactly one message with role [ai] to the
    history; the message is not empty and contains the record's name,
    generic name, dosage, description and drug class. *)
Theorem recognizePill_picks_from_catalog (r : spec_float) (st : State) :
  Num.isRandom r = true ->
  length medicationDatabase = 3%nat /\
  exists key m st',
    In (key, m) medicationDatabase /\
    recognizePill formatMessage scrollHeight r st = (Normal tt, st') /\
    currentMedication st' = Some m /\
    conversationHistory st' =
      (conversationHistory st ++ [{| role := ai; content := recognitionMessage m |}])%list /\
    recognitionMessage m <> "" /\
    includes (recognitionMessage m) (name m) = true /\
    includes (recognitionMessage m) (genericName m) = true /\
    includes (recognitionMessage m) (dosage m) = true /\
    includes (recognitionMessage m) (description m) = true /\
    includes (recognitionMessage m) (drugClass m) = true.
Proof.
  intros Hr. split; [reflexivity |].
  destruct (random_key r Hr) as [key [m [Hidx [Hget Hin]]]].
  exists key, m. eexists. split; [exact Hin |].
  split.
  { unfold recognizePill, bind, modify, gets. rewrite Hidx, Hget.
    cbn [set_currentMedication currentMedication]. reflexivity. }
  split; [reflexivity |]. split; [reflexivity |].
  split; [discriminate |].
  unfold recognitionMessage. repeat split; find_field.
Qed.

(** C6.  [resetUpload] completes, leaves no current medication and an empty
    preview image source, and the history is the one it found. *)
Theorem resetUpload_keeps_history (st : State) :
  exists st',
    resetUpload st = (Normal tt, st') /\
    currentMedication st' = None /\
    previewImage_src (page st') = "" /\
    conversationHistory st' = conversationHistory st.
Proof. eexists. repeat split. Qed.

(** C7.  For every utterance and every state [generateAIResponse] returns a
    string and the state it was given: current medication and history are
    untouched.  The reply enters the history through the caller, the timer
    callback of [sendMessage], which appends it with [addAIMessage]. *)
Theorem generateAIResponse_reads_only (userMessage : string) (st : State) :
  exists reply,
    generateAIResponse toLowerCase userMessage st = (Normal reply, st) /\
    exists st',
      respond toLowerCase formatMessage scrollHeight userMessage st = (Normal tt, st') /\
      conversationHistory st' =
        (conversationHistory st ++ [{| role := ai; content := reply |}])%list /\
      currentMedication st' = currentMedication st.
Proof.
  destruct (generateAIResponse_pure toLowerCase userMessage st) as [reply E].
  exists reply. split; [exact E |].
  unfold respond, bind. rewrite E.
  destruct (addAIMessage_run reply st) as [st' [E' [Hh [Hm _]]]].
  exists st'. auto.
Qed.

(** No handler of the page shortens or rewrites the history. *)
Lemma step_extends_history (st : State) (e : Event) :
  conversationHistory st `prefix_of`
    conversationHistory (step toLowerCase trim escapeHtml formatMessage scrollHeight st e).
Proof.
  unfold step.
  destruct e as [file | | | file | | | key | text | i random]; cbn [handle].
  - destruct file as [f|]; cbn [uploadIfImage]; [destruct (startsWith _ _) |]; reflexivity.
  - reflexivity.
  - reflexivity.
  - destruct file as [f|]; cbn [uploadIfImage]; [destruct (startsWith _ _) |]; reflexivity.
  - reflexivity.
  - unfold sendMessage, bind, gets. destruct (isEmpty _); [reflexivity |].
    now apply prefix_app_r.
  - destruct (String.eqb key "Enter"); [| reflexivity].
    unfold sendMessage, bind, gets. destruct (isEmpty _); [reflexivity |].
    now apply prefix_app_r.
  - reflexivity.
  - unfold bind, gets. destruct (nth_error (timers st) i) as [[delay t]|]; [| reflexivity].
    cbn [modify]. set (st1 := set_timers (removeAt i) st).
    change (conversationHistory st) with (conversationHistory st1).
    destruct t as [result | | message]; cbn [runTask].
    + reflexivity.
    + unfold recognizePill, bind, modify, gets.
      cbn [set_currentMedication currentMedication].
      destruct (match Num.index _ _ with Some k => getProp medicationDatabase k | None => None end);
        [now apply prefix_app_r | reflexivity].
    + unfold respond, bind.
      destruct (generateAIResponse_pure toLowerCase message st1) as [reply ->].
      now apply prefix_app_r.
Qed.

Lemma run_extends_history (es : list Event) (st : State) :
  conversationHistory st `prefix_of`
    conversationHistory (run toLowerCase trim escapeHtml formatMessage scrollHeight st es).
Proof.
  revert st. induction es as [|e es IH]; intros st; [reflexivity |].
  unfold run. cbn [fold_left].
  etransitivity; [apply (step_extends_history st e) | apply IH].
Qed.

(** C8.  [addUserMessage] and [addAIMessage] each put exactly one entry, with
    role [user] and [ai] respectively, at the end of the history; and
    whatever the page does, one event or a sequence of them, the earlier
    history stays as a prefix of the later one: nothing is removed or
    reordered. *)
Theorem history_is_append_only :
  (forall text st, exists st',
      addUserMessage escapeHtml scrollHeight text st = (Normal tt, st') /\
      conversationHistory st' =
        (conversationHistory st ++ [{| role := user; content := text |}])%list) /\
  (forall text st, exists st',
      addAIMessage formatMessage scrollHeight text st = (Normal tt, st') /\
      conversationHistory st' =
        (conversationHistory st ++ [{| role := ai; content := text |}])%list) /\
  (forall st e,
      conversationHistory st `prefix_of`
        conversationHistory (step toLowerCase trim escapeHtml formatMessage scrollHeight st e)) /\
  (forall st es,
      conversationHistory st `prefix_of`
        conversationHistory (run toLowerCase trim escapeHtml formatMessage scrollHeight st es)).
Proof.
  split; [| split; [| split]].
  - intros text st. destruct (addUserMessage_run text st) as [st' [E [H _]]]. eauto.
  - intros text st. destruct (addAIMessage_run text st) as [st' [E [H _]]]. eauto.
  - intros st e. apply step_extends_history.
  - intros st es. apply run_extends_history.
Qed.

End Conversation.

Lemma recognizePill_picks_from_catalog_witness :
  Num.isRandom half = true /\
  exists key m st',
    In (key, m) medicationDatabase /\
    recognizePill (fun s => s) (fun _ => 0) half (initialState emptyPage) = (Normal tt, st') /\
    currentMedication st' = Some m /\
    conversationHistory st' = [{| role := ai; content := recognitionMessage m |}].
Proof.
  split; [reflexivity |].
  destruct (recognizePill_picks_from_catalog (fun s => s) (fun _ => 0) half
              (initialState emptyPage) eq_refl)
    as [_ [key [m [st' [Hin [Hrun [Hcm [Hhist _]]]]]]]].
  exists key, m, st'. repeat split; assumption.
Defined.

(** ** The start-up script *)

Section StartUp.

Import StartScript.

Lemma anyThenNonUnderscore_spec (s : string) :
  anyThenNonUnderscore s = true <->
  exists v c q, s = v ^^ String c q /\ c <> "_"%char.
Proof.
  induction s as [|a s IH]; cbn [anyThenNonUnderscore].
  - split; [discriminate |]. intros [v [c [q [E _]]]]. destruct v; discriminate.
  - rewrite orb_true_iff, negb_true_iff, IH. split.
    + intros [Ha | [v [c [q [-> Hc]]]]].
      * exists "", a, s. split; [reflexivity |].
        intros ->. now rewrite Ascii.eqb_refl in Ha.
      * exists (String a v), c, q. now split.
    + intros [v [c [q [E Hc]]]]. destruct v as [|b v]; cbn in E; injection E as -> ->.
      * left. now apply Ascii.eqb_neq.
      * right. exists v, c, q. now split.
Qed.

(** [grepLine] finds exactly the lines the pattern denotes. *)
Lemma grepLine_spec (line : string) :
  grepLine line = true <->
  exists p v c q, line = p ^^ KEY ^^ v ^^ String c q /\ c <> "_"%char.
Proof.
  induction line as [|a line IH].
  - split; [discriminate |]. intros [p [v [c [q [E _]]]]].
    destruct p; discriminate.
  - change (grepLine (String a line))
      with (match stripPrefix KEY (String a line) with
            | Some rest => anyThenNonUnderscore rest
            | None => false
            end || grepLine line).
    rewrite orb_true_iff, IH. split.
    + intros [Hhere | [p [v [c [q [-> Hc]]]]]].
      * destruct (stripPrefix KEY (String a line)) as [rest|] eqn:E; [| discriminate].
        apply stripPrefix_spec in E. apply anyThenNonUnderscore_spec in Hhere.
        destruct Hhere as [v [c [q [-> Hc]]]]. exists "", v, c, q. now split.
      * exists (String a p), v, c, q. now split.
    + intros [p [v [c [q [E Hc]]]]]. destruct p as [|b p].
      * left. cbn [String.append] in E. rewrite E, stripPrefix_app.
        apply anyThenNonUnderscore_spec. exists v, c, q. now split.
      * right. cbn [String.append] in E. injection E as _ ->.
        exists p, v, c, q. now split.
Qed.

Lemma grep_q_spec (contents : string) : grep_q contents = true <-> keyIsSet contents.
Proof.
  unfold grep_q, keyIsSet. rewrite existsb_exists. split.
  - intros [line [Hin Hg]]. apply grepLine_spec in Hg.
    destruct Hg as [p [v [c [q [E Hc]]]]]. exists line, p, v, c, q. auto.
  - intros [line [p [v [c [q [Hin [E Hc]]]]]]]. exists line. split; [exact Hin |].
    apply grepLine_spec. exists p, v, c, q. now split.
Qed.

(** C9, as the script has it.  The script ends in one of two ways: it
    starts the server or it exits with code 1.  It starts the server only
    when [venv] is a directory, [.env] is a file, and some line of [.env]
    has [GEMINI_API_KEY=] followed by a character that is not an
    underscore; when one of the three is missing it exits with code 1.  On
    a file of ASCII text the three together also suffice for the server to
    start.  The test is on the presence of a value, so the placeholder text
    of the script's own messages passes it. *)
Theorem start_exit_codes (env : Env) :
  (fst (start env) = ServerStarted ->
     venv env = true /\
     exists contents, dotenv env = Some contents /\ keyIsSet contents) /\
  (fst (start env) <> ServerStarted -> fst (start env) = Exit 1) /\
  (venv env = false -> fst (start env) = Exit 1) /\
  (dotenv env = None -> fst (start env) = Exit 1) /\
  (forall contents,
      dotenv env = Some contents -> ~ keyIsSet contents -> fst (start env) = Exit 1) /\
  (forall contents,
      venv env = true ->
      dotenv env = Some contents ->
      asciiText contents = true ->
      keyIsSet contents ->
      fst (start env) = ServerStarted) /\
  asciiText (KEY ^^ placeholder) = true /\
  grep_q (KEY ^^ placeholder) = true /\
  grep_q KEY = false.
Proof.
  assert (Hq : asciiText (KEY ^^ placeholder) = true /\
               grep_q (KEY ^^ placeholder) = true /\ grep_q KEY = false)
    by (repeat split; reflexivity).
  unfold start.
  destruct (venv env) eqn:Hv; cbn [negb].
  - destruct (dotenv env) as [contents|] eqn:Hd.
    + destruct (grep_q contents) eqn:Hg; cbn [negb fst].
      * split.
        { intros _. split; [reflexivity |]. exists contents.
          split; [reflexivity | now apply grep_q_spec]. }
        split; [intros H; now destruct H |].
        split; [discriminate |]. split; [discriminate |].
        split; [| split; [reflexivity | exact Hq]].
        intros c [= <-] Hk. exfalso. apply Hk. now apply grep_q_spec.
      * split; [discriminate |].
        split; [reflexivity |]. split; [reflexivity |]. split; [reflexivity |].
        split; [reflexivity |]. split; [| exact Hq].
        intros c _ [= <-] _ Hk. apply grep_q_spec in Hk. congruence.
    + cbn [fst]. split; [discriminate |].
      split; [reflexivity |]. split; [reflexivity |]. split; [reflexivity |].
      split; [reflexivity |]. split; [| exact Hq].
      intros c _ E. discriminate E.
  - cbn [fst]. split; [discriminate |].
    split; [reflexivity |]. split; [reflexivity |]. split; [reflexivity |].
    split; [reflexivity |]. split; [| exact Hq].
    intros c E. discriminate E.
Qed.

(** The text of the script's own messages as the key's line: an ASCII text
    file on which the three checks pass, so the server starts. *)
Lemma start_exit_codes_witness :
  asciiText ("GEMINI_API_KEY=your_api_key_here" ^^ LF) = true /\
  fst (start {| venv := true;
                dotenv := Some ("GEMINI_API_KEY=your_api_key_here" ^^ LF);
                dotenv_example := None |}) = ServerStarted.
Proof.
  split; [reflexivity |].
  destruct (start_exit_codes
              {| venv := true;
                 dotenv := Some ("GEMINI_API_KEY=your_api_key_here" ^^ LF);
                 dotenv_example := None |})
    as [_ [_ [_ [_ [_ [Hstart _]]]]]].
  apply (Hstart ("GEMINI_API_KEY=your_api_key_here" ^^ LF)); try reflexivity.
  apply grep_q_spec. reflexivity.
Defined.

(** C9 as stated fails: with [venv] and [.env] in place and the placeholder
    as the key's value, the script does not exit with code 1, it starts the
    server; so does the second run on a fresh checkout whose [.env.example]
    carries the placeholder. *)
Lemma placeholder_key_starts_server :
  fst (start {| venv := true;
                dotenv := Some ("GEMINI_API_KEY=your_api_key_here" ^^ LF);
                dotenv_example := None |}) = ServerStarted /\
  fst (start {| venv := true;
                dotenv := Some ("GEMINI_API_KEY=your_api_key_here" ^^ LF);
                dotenv_example := None |}) <> Exit 1 /\
  startTwice {| venv := true;
                dotenv := None;
                dotenv_example := Some ("GEMINI_API_KEY=your_api_key_here" ^^ LF) |}
    = (Exit 1, ServerStarted).
Proof. repeat split. discriminate. Qed.

End StartUp.

(** * Further properties of the script *)

(** ** Rendering *)

Section Rendering.

Import Render.

Lemma hasChar_app (c : ascii) (s t : string) :
  hasChar c (s ^^ t) = hasChar c s || hasChar c t.
Proof.
  induction s as [|a s IH]; cbn [String.append hasChar]; [reflexivity |].
  now rewrite IH, orb_assoc.
Qed.

(** Searching for a one-character string is searching for the character. *)
Lemma includes_char (c : ascii) (s : string) :
  includes s (String c EmptyString) = hasChar c s.
Proof.
  induction s as [|a s IH]; [reflexivity |].
  cbn [includes hasChar]. rewrite IH. f_equal.
  unfold startsWith. cbn [stripPrefix]. rewrite (Ascii.eqb_sym c a).
  now destruct (Ascii.eqb a c).
Qed.

Lemma lineBreaks_app (s t : string) :
  lineBreaks (s ^^ t) = lineBreaks s ^^ lineBreaks t.
Proof.
  induction s as [|a s IH]; cbn [String.append lineBreaks]; [reflexivity |].
  rewrite IH. destruct (Ascii.eqb a "010"); reflexivity.
Qed.

Lemma lineBreaks_no_LF (s : string) : hasChar "010" (lineBreaks s) = false.
Proof.
  induction s as [|a s IH]; [reflexivity |].
  cbn [lineBreaks]. destruct (Ascii.eqb a "010") eqn:E.
  - rewrite hasChar_app, IH. reflexivity.
  - cbn [hasChar]. now rewrite E, IH.
Qed.

Lemma lineBreaks_id (s : string) : hasChar "010" s = false -> lineBreaks s = s.
Proof.
  induction s as [|a s IH]; [reflexivity |].
  cbn [hasChar lineBreaks]. rewrite orb_false_iff. intros [-> H]. now rewrite IH.
Qed.


Lemma length_append (s t : string) :
  String.length (s ^^ t) = (String.length s + String.length t)%nat.
Proof. induction s as [|a s IH]; cbn; [reflexivity | now rewrite IH]. Qed.

(** Passing the characters of a match brings the search to what follows. *)
Lemma bold_skip (p r : string) : bold (String.length p) (p ^^ r) = bold 0 r.
Proof. induction p as [|a p IH]; [reflexivity | exact IH]. Qed.

Lemma startsWith_stars (c : ascii) (s : string) :
  Ascii.eqb c "*" = false -> stripPrefix "**" (String c s) = None.
Proof. intros H. cbn [stripPrefix]. now rewrite Ascii.eqb_sym, H. Qed.

Lemma bold_plain_prefix (a r : string) :
  hasChar "*" a = false -> bold 0 (a ^^ r) = a ^^ bold 0 r.
Proof.
  induction a as [|c a IH]; [reflexivity |].
  cbn [hasChar]. rewrite orb_false_iff. intros [Hc Ha].
  cbn [String.append bold]. rewrite (startsWith_stars c _ Hc). now rewrite IH.
Qed.

Lemma bold_without_pair (s : string) : includes s "**" = false -> bold 0 s = s.
Proof.
  induction s as [|c s IH]; [reflexivity |].
  cbn [includes]. rewrite orb_false_iff. unfold startsWith. intros [Hs Hi].
  cbn [bold]. destruct (stripPrefix "**" (String c s)); [discriminate |].
  now rewrite IH.
Qed.

Lemma bold_match (c : ascii) (s' rest captured : string) :
  stripPrefix "**" (String c s') = Some rest ->
  closing rest = Some captured ->
  bold 0 (String c s') =
    "<strong>" ^^ captured ^^ "</strong>" ^^ bold (String.length captured + 3) s'.
Proof. intros H1 H2. cbn [bold]. now rewrite H1, H2. Qed.

Lemma startsWith_tail_app (t x b : string) :
  t = LS_tail \/ t = PS_tail ->
  startsWith x t = false -> startsWith (x ^^ "**" ^^ b) t = false.
Proof.
  unfold startsWith, LS_tail, PS_tail.
  intros [-> | ->]; destruct x as [|d [|e x]]; cbn [String.append stripPrefix];
    try destruct (Ascii.eqb "128" d); try reflexivity; try discriminate;
    try destruct (Ascii.eqb _ e); try reflexivity; try discriminate; auto.
Qed.

Lemma lineTerminatorAhead_app (c : ascii) (x b : string) :
  lineTerminatorAhead (String c x) = false ->
  lineTerminatorAhead (String c (x ^^ "**" ^^ b)) = false.
Proof.
  cbn [lineTerminatorAhead]. rewrite !orb_false_iff. intros [[H1 H2] H3].
  repeat split; try assumption.
  apply andb_false_iff. apply andb_false_iff in H3. destruct H3 as [H3 | H3]; [now left | right].
  apply orb_false_iff in H3. destruct H3 as [Ha Hb].
  apply orb_false_iff. split; apply startsWith_tail_app; auto.
Qed.

Lemma closing_plainSpan (x b : string) :
  plainSpan x = true -> closing (x ^^ "**" ^^ b) = Some x.
Proof.
  induction x as [|c x IH]; [reflexivity |].
  cbn [plainSpan]. rewrite !andb_true_iff, !negb_true_iff. intros [[Hc Hl] Hx].
  change (String c x ^^ "**" ^^ b) with (String c (x ^^ "**" ^^ b)).
  cbn [closing]. unfold startsWith at 1.
  rewrite (startsWith_stars c _ Hc), (lineTerminatorAhead_app c x b Hl), (IH Hx).
  reflexivity.
Qed.

Lemma plainSpan_no_LF (x : string) : plainSpan x = true -> hasChar "010" x = false.
Proof.
  induction x as [|c x IH]; [reflexivity |].
  cbn [plainSpan lineTerminatorAhead hasChar].
  rewrite !andb_true_iff, !negb_true_iff, !orb_false_iff.
  intros [[_ [[H _] _]] Hx]. split; [exact H | now apply IH].
Qed.

(** X1.  What [formatMessage] returns has no line feed left in it. *)
Theorem formatMessage_leaves_no_line_feed (text : string) :
  includes (formatMessage text) LF = false.
Proof. unfold formatMessage, LF. rewrite includes_char. apply lineBreaks_no_LF. Qed.

(** X2.  A text with no pair of asterisks gets its line feeds replaced and
    nothing else; with no line feed either it comes back as it is. *)
Theorem formatMessage_without_markup (text : string) :
  includes text "**" = false ->
  formatMessage text = lineBreaks text /\
  (includes text LF = false -> formatMessage text = text).
Proof.
  intros H. unfold formatMessage. rewrite (bold_without_pair text H).
  split; [reflexivity |]. unfold LF. rewrite includes_char. apply lineBreaks_id.
Qed.

Lemma formatMessage_without_markup_witness :
  includes ("2 * 3 = 6" ^^ LF ^^ "done") "**" = false /\
  formatMessage ("2 * 3 = 6" ^^ LF ^^ "done") = "2 * 3 = 6<br>done".
Proof.
  split; [reflexivity |].
  apply (proj1 (formatMessage_without_markup ("2 * 3 = 6" ^^ LF ^^ "done") eq_refl)).
Defined.

(** X3.  A span between two pairs of asterisks, with no asterisk and no line
    terminator inside and no asterisk before it, becomes a [strong]
    element, and the text after it is formatted on its own. *)
Theorem formatMessage_bold_span (before span after : string) :
  includes before "*" = false ->
  plainSpan span = true ->
  formatMessage (before ^^ "**" ^^ span ^^ "**" ^^ after) =
    lineBreaks before ^^ "<strong>" ^^ span ^^ "</strong>" ^^ formatMessage after.
Proof.
  rewrite includes_char. intros Hb Hs. unfold formatMessage.
  rewrite (bold_plain_prefix before _ Hb).
  assert (E : bold 0 ("**" ^^ span ^^ "**" ^^ after) =
              "<strong>" ^^ span ^^ "</strong>" ^^ bold 0 after).
  { change ("**" ^^ span ^^ "**" ^^ after)
      with (String "*" (String "*" (span ^^ "**" ^^ after))).
    rewrite (bold_match "*" (String "*" (span ^^ "**" ^^ after))
               (span ^^ "**" ^^ after) span eq_refl
               (closing_plainSpan span after Hs)).
    do 3 f_equal.
    replace (String "*" (span ^^ "**" ^^ after))
      with (("*" ^^ span ^^ "**") ^^ after)
      by (rewrite !append_assoc; reflexivity).
    replace (String.length span + 3)%nat with (String.length ("*" ^^ span ^^ "**"))
      by (rewrite !length_append; cbn [String.length]; lia).
    apply bold_skip. }
  rewrite E, !lineBreaks_app.
  now rewrite (lineBreaks_id span (plainSpan_no_LF span Hs)).
Qed.

Lemma formatMessage_bold_span_witness :
  includes "This appears to be " "*" = false /\
  plainSpan "Lisinopril" = true /\
  formatMessage ("This appears to be " ^^ "**" ^^ "Lisinopril" ^^ "**" ^^ " (Lisinopril), 10mg.")
    = "This appears to be <strong>Lisinopril</strong> (Lisinopril), 10mg.".
Proof.
  split; [reflexivity |]. split; [reflexivity |].
  apply (formatMessage_bold_span "This appears to be " "Lisinopril" " (Lisinopril), 10mg.");
    reflexivity.
Defined.

Lemma escapeHtml_no_angle_aux (c : ascii) :
  (c = "<" \/ c = ">")%char ->
  forall s, hasChar c (escapeHtml s) = false /\
            forall a, hasChar c (escapeHtml (String a s)) = false.
Proof.
  intros Hc s. induction s as [|b s [IH1 IH2]].
  - split; [reflexivity |]. intros a. cbn [escapeHtml].
    destruct Hc as [-> | ->];
      destruct (Ascii.eqb a "&") eqn:E1; try reflexivity;
      destruct (Ascii.eqb a "<") eqn:E2; try reflexivity;
      destruct (Ascii.eqb a ">") eqn:E3; try reflexivity;
      destruct (Ascii.eqb a "194") eqn:E4; cbn [hasChar]; rewrite ?E2, ?E3; reflexivity.
  - split; [apply IH2 |]. intros a.
    change (escapeHtml (String a (String b s)))
      with (if Ascii.eqb a "&" then "&amp;" ^^ escapeHtml (String b s)
            else if Ascii.eqb a "<" then "&lt;" ^^ escapeHtml (String b s)
            else if Ascii.eqb a ">" then "&gt;" ^^ escapeHtml (String b s)
            else if Ascii.eqb a "194" then
                   if Ascii.eqb b "160" then "&nbsp;" ^^ escapeHtml s
                   else String a (escapeHtml (String b s))
            else String a (escapeHtml (String b s))).
    specialize (IH2 b).
    destruct Hc as [-> | ->];
      destruct (Ascii.eqb a "&") eqn:E1; [rewrite hasChar_app, IH2; reflexivity | | rewrite hasChar_app, IH2; reflexivity |];
      (destruct (Ascii.eqb a "<") eqn:E2; [rewrite hasChar_app, IH2; reflexivity |]);
      (destruct (Ascii.eqb a ">") eqn:E3; [rewrite hasChar_app, IH2; reflexivity |]);
      (destruct (Ascii.eqb a "194") eqn:E4;
       [destruct (Ascii.eqb b "160"); [rewrite hasChar_app, IH1; reflexivity |] |]);
      cbn [hasChar]; rewrite ?E2, ?E3, IH2; reflexivity.
Qed.

(** X4.  What [escapeHtml] returns contains neither [<] nor [>]. *)
Theorem escapeHtml_has_no_angle_bracket (text : string) :
  includes (escapeHtml text) "<" = false /\ includes (escapeHtml text) ">" = false.
Proof.
  rewrite !includes_char. split.
  - apply (escapeHtml_no_angle_aux "<"); auto.
  - apply (escapeHtml_no_angle_aux ">"); auto.
Qed.

End Rendering.

(** ** Invariants of a page view *)

Section Transcript.

Variable toLowerCase : string -> string.
Variable trim : string -> string.
Variable escapeHtml : string -> string.
Variable formatMessage : string -> string.
Variable scrollHeight : list ChatNode -> Z.

(** The case analysis every invariant goes through: the event, the file it
    carries, the blank test of [sendMessage], the task a timer runs. *)
Ltac by_event st e :=
  unfold step;
  destruct e as [file | | | file | | | key | text | i random]; cbn [handle];
  [ destruct file as [f|]; cbn [uploadIfImage];
    [destruct (startsWith (type f) "image/") eqn:Himg |]
  |
  |
  | destruct file as [f|]; cbn [uploadIfImage];
    [destruct (startsWith (type f) "image/") eqn:Himg |]
  |
  | unfold sendMessage, bind, gets; destruct (isEmpty _) eqn:Hblank
  | destruct (String.eqb key "Enter");
    [unfold sendMessage, bind, gets; destruct (isEmpty _) eqn:Hblank |]
  |
  | unfold bind, gets;
    destruct (nth_error (timers st) i) as [[delay t]|] eqn:Hnth;
    [ cbn [modify]; destruct t as [result | | message]; cbn [runTask];
      [
      | unfold recognizePill, bind, modify, gets;
        cbn [set_currentMedication currentMedication];
        destruct (match Num.index _ _ with
                  | Some k => getProp medicationDatabase k
                  | None => None
                  end) as [m|] eqn:Hpick
      | unfold respond, bind;
        destruct (generateAIResponse_pure toLowerCase message
                    (set_timers (removeAt i) st)) as [reply Hreply];
        rewrite Hreply ]
    | ] ].

(** Chat nodes and history entries are added together. *)
Lemma step_mirrors_history (st : State) (e : Event) :
  exists added,
    conversationHistory (step toLowerCase trim escapeHtml formatMessage scrollHeight st e) =
      (conversationHistory st ++ added)%list /\
    chatMessages_children
      (page (step toLowerCase trim escapeHtml formatMessage scrollHeight st e)) =
      (chatMessages_children (page st) ++ map (renderEntry escapeHtml formatMessage) added)%list.
Proof.
  by_event st e.
  all: try (exists []; cbn [map]; rewrite !app_nil_r; split; reflexivity).
  all: eexists [_]; split; reflexivity.
Qed.

Lemma run_mirrors_history (st : State) (es : list Event) :
  exists added,
    conversationHistory (run toLowerCase trim escapeHtml formatMessage scrollHeight st es) =
      (conversationHistory st ++ added)%list /\
    chatMessages_children
      (page (run toLowerCase trim escapeHtml formatMessage scrollHeight st es)) =
      (chatMessages_children (page st) ++ map (renderEntry escapeHtml formatMessage) added)%list.
Proof.
  revert st. induction es as [|e es IH]; intros st.
  - exists []. cbn [map]. rewrite !app_nil_r. split; reflexivity.
  - unfold run. cbn [fold_left].
    destruct (step_mirrors_history st e) as [a1 [H1 C1]].
    destruct (IH (step toLowerCase trim escapeHtml formatMessage scrollHeight st e))
      as [a2 [H2 C2]].
    exists (a1 ++ a2)%list. unfold run in H2, C2.
    rewrite H2, C2, H1, C1, map_app, !app_assoc. split; reflexivity.
Qed.

(** X5.  The transcript on the page mirrors the history: over any sequence of
    events, the chat nodes added are the renderings of the history entries
    added, in the same order. *)
Theorem transcript_mirrors_history (st : State) (es : list Event) :
  exists added,
    conversationHistory (run toLowerCase trim escapeHtml formatMessage scrollHeight st es) =
      (conversationHistory st ++ added)%list /\
    chatMessages_children
      (page (run toLowerCase trim escapeHtml formatMessage scrollHeight st es)) =
      (chatMessages_children (page st) ++ map (renderEntry escapeHtml formatMessage) added)%list.
Proof. apply run_mirrors_history. Qed.

Lemma getProp_in (db : list (string * Medication)) (k : string) (m : Medication) :
  getProp db k = Some m -> In m (map snd db).
Proof.
  induction db as [|[k' m'] db IH]; [discriminate |].
  cbn [getProp map snd]. destruct (String.eqb k' k).
  - intros [= ->]. now left.
  - intros H. right. now apply IH.
Qed.

Lemma step_keeps_medication_in_catalog (st : State) (e : Event) :
  medicationInCatalog st ->
  medicationInCatalog (step toLowerCase trim escapeHtml formatMessage scrollHeight st e).
Proof.
  unfold medicationInCatalog. intros Hst.
  by_event st e; try exact Hst; try exact I.
  cbn. now apply (getProp_in medicationDatabase) with (k :=
    match Num.index (keys medicationDatabase)
            (Num.floor (Num.mul random (Num.ofNat (length (keys medicationDatabase))))) with
    | Some k => k | None => EmptyString end);
    destruct (Num.index _ _); [exact Hpick | discriminate].
Qed.

Lemma run_keeps_medication_in_catalog (es : list Event) (st : State) :
  medicationInCatalog st ->
  medicationInCatalog (run toLowerCase trim escapeHtml formatMessage scrollHeight st es).
Proof.
  revert st. induction es as [|e es IH]; intros st Hst; [exact Hst |].
  unfold run. cbn [fold_left]. apply IH. now apply step_keeps_medication_in_catalog.
Qed.

(** X6.  Whatever happens on the page, and whatever numbers [Math.random()]
    returns, the current medication is absent or a record of the catalog. *)
Theorem current_medication_is_from_catalog (p : Page) (es : list Event) :
  match currentMedication
          (run toLowerCase trim escapeHtml formatMessage scrollHeight (initialState p) es) with
  | Some m => In m catalog
  | None => True
  end.
Proof. apply (run_keeps_medication_in_catalog es (initialState p)). exact I. Qed.

Lemma isEmpty_false (s : string) : isEmpty s = false -> s <> EmptyString.
Proof. now destruct s. Qed.

Lemma Forall_removeAt {A} (P : A -> Prop) (i : nat) (l : list A) :
  Forall P l -> Forall P (removeAt i l).
Proof.
  intros H. unfold removeAt. apply Forall_app. split.
  - now apply Forall_take.
  - now apply Forall_drop.
Qed.

Lemma step_keeps_messages_nonempty (st : State) (e : Event) :
  userEntriesNonEmpty st /\ pendingNonEmpty st ->
  userEntriesNonEmpty (step toLowerCase trim escapeHtml formatMessage scrollHeight st e) /\
  pendingNonEmpty (step toLowerCase trim escapeHtml formatMessage scrollHeight st e).
Proof.
  unfold userEntriesNonEmpty, pendingNonEmpty. intros [Hh Ht].
  by_event st e; cbn -[removeAt]; try (split; assumption).
  all: try (split; [exact Hh | apply Forall_app; split; [exact Ht | repeat constructor]]).
  all: try (split; [apply Forall_app; split; [exact Hh | repeat constructor; discriminate]
                   | now apply Forall_removeAt]).
  all: try (split; [exact Hh | now apply Forall_removeAt]).
  all: try (split; [exact Hh | apply Forall_app; split;
                               [now apply Forall_removeAt | repeat constructor]]).
  all: split;
    [ apply Forall_app; split; [exact Hh | repeat constructor; intros _; now apply isEmpty_false]
    | apply Forall_app; split; [exact Ht | repeat constructor; now apply isEmpty_false] ].
Qed.

(** X7.  No empty message is recorded for the user, and no reply is ever asked
    for an empty message: what [sendMessage] records and schedules is the
    trimmed input, and only when it is not empty. *)
Theorem no_empty_user_message (p : Page) (es : list Event) :
  userEntriesNonEmpty
    (run toLowerCase trim escapeHtml formatMessage scrollHeight (initialState p) es) /\
  pendingNonEmpty
    (run toLowerCase trim escapeHtml formatMessage scrollHeight (initialState p) es).
Proof.
  assert (H : userEntriesNonEmpty (initialState p) /\ pendingNonEmpty (initialState p))
    by (split; constructor).
  revert H. generalize (initialState p). induction es as [|e es IH]; intros st H; [exact H |].
  unfold run. cbn [fold_left]. apply IH. now apply step_keeps_messages_nonempty.
Qed.

Lemma catalog_texts (m : Medication) (t : string) :
  In m catalog ->
  In t [recognitionMessage m; sideEffectReply m; instructionsReply m;
        identityReply m; foodReply m; missedDoseReply m; defaultReply (Some m)] ->
  In t assistantTexts.
Proof.
  intros Hm Ht. unfold assistantTexts. apply in_or_app. right.
  apply in_flat_map. exists m. split; assumption.
Qed.

Lemma fixed_texts (t : string) :
  In t [refusalMessage; thanksReply; greetingReply; defaultReply None] ->
  In t assistantTexts.
Proof. intros Ht. unfold assistantTexts. apply in_or_app. now left. Qed.

(** With a current medication from the catalog, or none, the reply is one of
    the assistant's texts. *)
Lemma reply_is_assistant_text (userMessage reply : string) (st : State) :
  medicationInCatalog st ->
  generateAIResponse toLowerCase userMessage st = (Normal reply, st) ->
  In reply assistantTexts.
Proof.
  unfold medicationInCatalog. intros Hm E.
  destruct (isDangerous (toLowerCase userMessage)) eqn:Hd.
  - unfold generateAIResponse in E. rewrite Hd in E. injection E as <-.
    apply fixed_texts. cbn [In]. tauto.
  - assert (G : forall r, generalResponse (toLowerCase userMessage) st = (Normal r, st) ->
                          In r assistantTexts).
    { intros r. rewrite generalResponse_cases. intros [= <-].
      destruct (includes _ "thank"); [apply fixed_texts; cbn [In]; tauto |].
      destruct (includes _ "hello" || includes _ "hi"); [apply fixed_texts; cbn [In]; tauto |].
      destruct (currentMedication st) as [m|].
      - apply (catalog_texts m); [exact Hm | cbn [In]; tauto].
      - apply fixed_texts. cbn [In]. tauto. }
    destruct (currentMedication st) as [m|] eqn:Hcm.
    + rewrite (context_block_firstMatch _ _ _ _ Hcm Hd) in E.
      destruct (firstMatch (toLowerCase userMessage) contextRules) as [template|] eqn:Hf;
        [| now apply G].
      injection E as <-.
      unfold firstMatch in Hf. destruct (find _ contextRules) as [rule|] eqn:Hfind;
        [| discriminate].
      injection Hf as <-. apply find_some in Hfind. destruct Hfind as [Hin _].
      apply (catalog_texts m); [exact Hm |].
      cbn [contextRules In] in Hin. cbn [In].
      destruct Hin as [<- | [<- | [<- | [<- | [<- | []]]]]]; cbn [snd]; tauto.
    + rewrite (no_medication_general _ _ _ Hcm Hd) in E. now apply G.
Qed.

(** The entries with role [ai] are assistant texts. *)
Lemma step_keeps_assistant_texts (st : State) (e : Event) :
  medicationInCatalog st ->
  Forall (fun msg => role msg = ai -> In (content msg) assistantTexts)
         (conversationHistory st) ->
  Forall (fun msg => role msg = ai -> In (content msg) assistantTexts)
         (conversationHistory (step toLowerCase trim escapeHtml formatMessage scrollHeight st e)).
Proof.
  intros Hcat Hh.
  by_event st e; cbn -[removeAt assistantTexts]; try exact Hh.
  - apply Forall_app. split; [exact Hh |]. apply Forall_singleton. discriminate.
  - apply Forall_app. split; [exact Hh |]. apply Forall_singleton. discriminate.
  - apply Forall_app. split; [exact Hh |]. apply Forall_singleton. intros _.
    apply (catalog_texts m); [| cbn [In]; tauto].
    apply (getProp_in medicationDatabase) with (k :=
      match Num.index (keys medicationDatabase)
              (Num.floor (Num.mul random (Num.ofNat (length (keys medicationDatabase))))) with
      | Some k => k | None => EmptyString end).
    destruct (Num.index _ _); [exact Hpick | discriminate].
  - apply Forall_app. split; [exact Hh |]. apply Forall_singleton. intros _.
    apply (reply_is_assistant_text message reply (set_timers (removeAt i) st));
      [exact Hcat | exact Hreply].
Qed.

Lemma run_keeps_assistant_texts (p : Page) (es : list Event) :
  Forall (fun msg => role msg = ai -> In (content msg) assistantTexts)
         (conversationHistory
            (run toLowerCase trim escapeHtml formatMessage scrollHeight (initialState p) es)).
Proof.
  assert (H : medicationInCatalog (initialState p) /\
              Forall (fun msg => role msg = ai -> In (content msg) assistantTexts)
                     (conversationHistory (initialState p)))
    by (split; constructor).
  revert H. generalize (initialState p).
  induction es as [|e es IH]; intros st [Hc Hh]; [exact Hh |].
  unfold run. cbn [fold_left]. apply IH. split.
  - now apply step_keeps_medication_in_catalog.
  - now apply step_keeps_assistant_texts.
Qed.

(** X8.  Every message with role [ai] is one of 25 texts: the refusal, the
    gratitude reply, the greeting, the fallback without a name, and for each
    of the three records the recognition message, the five templates and
    the fallback with its name.  No text the user typed reaches an
    assistant message. *)
Theorem assistant_messages_are_canned (p : Page) (es : list Event) :
  length assistantTexts = 25%nat /\
  Forall (fun msg => role msg = ai -> In (content msg) assistantTexts)
         (conversationHistory
            (run toLowerCase trim escapeHtml formatMessage scrollHeight (initialState p) es)).
Proof. split; [reflexivity | apply run_keeps_assistant_texts]. Qed.

Lemma pending_is_response (st : State) (i : nat) (delay : Z) (t : Task) :
  noUploadPending st ->
  nth_error (timers st) i = Some (delay, t) ->
  exists message, t = ResponseTimer message.
Proof.
  unfold noUploadPending. intros H Hnth.
  apply nth_error_In in Hnth. rewrite List.Forall_forall in H.
  specialize (H _ Hnth). cbn [snd] in H. destruct t; [contradiction | contradiction | eauto].
Qed.

Lemma step_without_image (st : State) (e : Event) :
  carriesNoImage e ->
  currentMedication st = None /\ noUploadPending st ->
  currentMedication (step toLowerCase trim escapeHtml formatMessage scrollHeight st e) = None /\
  noUploadPending (step toLowerCase trim escapeHtml formatMessage scrollHeight st e).
Proof.
  unfold noUploadPending. intros He [Hcm Ht].
  by_event st e; cbn -[removeAt]; cbn [carriesNoImage] in He; try congruence;
    try (split; [first [exact Hcm | reflexivity] | exact Ht]).
  all: try (split; [first [exact Hcm | reflexivity] | apply Forall_app; split; [exact Ht | now apply Forall_singleton]]).
  all: try (destruct (pending_is_response st i delay _ Ht Hnth) as [? ?]; discriminate).
  all: split; [first [exact Hcm | reflexivity] | now apply Forall_removeAt].
Qed.

(** X9.  As long as no event brings an image file, nothing is recognized: the
    current medication stays absent over the whole page view. *)
Theorem no_recognition_without_image (p : Page) (es : list Event) :
  Forall carriesNoImage es ->
  currentMedication
    (run toLowerCase trim escapeHtml formatMessage scrollHeight (initialState p) es) = None.
Proof.
  intros Hes.
  assert (H : currentMedication (initialState p) = None /\ noUploadPending (initialState p))
    by (split; [reflexivity | constructor]).
  revert H. generalize (initialState p).
  induction Hes as [|e es He Hes IH]; intros st H; [apply H |].
  unfold run. cbn [fold_left]. apply IH. now apply step_without_image.
Qed.

(** [generateAIResponse] reads the current medication and nothing else. *)
Lemma reply_depends_on_medication_only (userMessage reply : string) (st1 st2 : State) :
  currentMedication st1 = currentMedication st2 ->
  generateAIResponse toLowerCase userMessage st1 = (Normal reply, st1) ->
  generateAIResponse toLowerCase userMessage st2 = (Normal reply, st2).
Proof.
  intros Hcm E.
  destruct (isDangerous (toLowerCase userMessage)) eqn:Hd.
  - unfold generateAIResponse in *. rewrite Hd in *. now injection E as <-.
  - destruct (currentMedication st1) as [m|] eqn:H1; symmetry in Hcm.
    + rewrite (context_block_firstMatch _ _ _ _ H1 Hd) in E.
      rewrite (context_block_firstMatch _ _ _ _ Hcm Hd).
      destruct (firstMatch _ contextRules); [now injection E as <- |].
      rewrite generalResponse_cases in *. rewrite Hcm. rewrite H1 in E.
      now injection E as <-.
    + rewrite (no_medication_general _ _ _ H1 Hd) in E.
      rewrite (no_medication_general _ _ _ Hcm Hd).
      rewrite generalResponse_cases in *. rewrite Hcm. rewrite H1 in E.
      now injection E as <-.
Qed.

(** *** What single events do *)

Lemma step_send (st : State) :
  isEmpty (trim (chatInput_value (page st))) = false ->
  step toLowerCase trim escapeHtml formatMessage scrollHeight st SendMessage =
    {| currentMedication := currentMedication st;
       conversationHistory :=
         (conversationHistory st ++
          [{| role := user; content := trim (chatInput_value (page st)) |}])%list;
       page :=
         Dom.with_chatInput_value EmptyString
           (scrollToBottom scrollHeight
              (Dom.appendChild
                 (renderEntry escapeHtml formatMessage
                    {| role := user; content := trim (chatInput_value (page st)) |})
                 (page st)));
       timers :=
         (timers st ++ [(800, ResponseTimer (trim (chatInput_value (page st))))])%list |}.
Proof.
  intros Hblank. unfold step. cbn [handle]. unfold sendMessage, bind, gets.
  now rewrite Hblank.
Qed.

Lemma step_fire_response (st : State) (i : nat) (delay : Z) (message reply : string)
    (random : spec_float) :
  nth_error (timers st) i = Some (delay, ResponseTimer message) ->
  generateAIResponse toLowerCase message st = (Normal reply, st) ->
  step toLowerCase trim escapeHtml formatMessage scrollHeight st (Fire i random) =
    {| currentMedication := currentMedication st;
       conversationHistory :=
         (conversationHistory st ++ [{| role := ai; content := reply |}])%list;
       page :=
         scrollToBottom scrollHeight
           (Dom.appendChild
              (renderEntry escapeHtml formatMessage {| role := ai; content := reply |})
              (page st));
       timers := removeAt i (timers st) |}.
Proof.
  intros Hnth Hreply. unfold step. cbn [handle]. unfold bind at 1, gets.
  rewrite Hnth. unfold bind at 1. cbn [modify runTask]. unfold respond, bind.
  rewrite (reply_depends_on_medication_only message reply st
             (set_timers (removeAt i) st) eq_refl Hreply).
  reflexivity.
Qed.

Lemma step_fire_reader (st : State) (i : nat) (delay : Z) (result : string)
    (random : spec_float) :
  nth_error (timers st) i = Some (delay, ReaderOnload result) ->
  step toLowerCase trim escapeHtml formatMessage scrollHeight st (Fire i random) =
    {| currentMedication := currentMedication st;
       conversationHistory := conversationHistory st;
       page :=
         Dom.with_previewImage_src result
           (Dom.with_photoPreview_classList (Dom.classList_remove "hidden")
              (Dom.with_uploadZone_classList (Dom.classList_add "hidden") (page st)));
       timers := (removeAt i (timers st) ++ [(1500, RecognizeTimer)])%list |}.
Proof.
  intros Hnth. unfold step. cbn [handle]. unfold bind at 1, gets.
  rewrite Hnth. reflexivity.
Qed.

Lemma step_fire_recognize (st : State) (i : nat) (delay : Z) (random : spec_float) :
  nth_error (timers st) i = Some (delay, RecognizeTimer) ->
  Num.isRandom random = true ->
  exists m,
    In m catalog /\
    step toLowerCase trim escapeHtml formatMessage scrollHeight st (Fire i random) =
      {| currentMedication := Some m;
         conversationHistory :=
           (conversationHistory st ++
            [{| role := ai; content := recognitionMessage m |}])%list;
         page :=
           scrollToBottom scrollHeight
             (Dom.appendChild
                (renderEntry escapeHtml formatMessage
                   {| role := ai; content := recognitionMessage m |})
                (page st));
         timers := removeAt i (timers st) |}.
Proof.
  intros Hnth Hr. destruct (random_key random Hr) as [key [m [Hidx [Hget Hin]]]].
  exists m. split; [now apply (getProp_in medicationDatabase key) |].
  unfold step. cbn [handle]. unfold bind at 1, gets.
  rewrite Hnth. unfold bind at 1. cbn [modify runTask].
  unfold recognizePill, bind, modify, gets. rewrite Hidx, Hget. reflexivity.
Qed.

Lemma step_upload (st : State) (f : File) :
  startsWith (type f) "image/" = true ->
  step toLowerCase trim escapeHtml formatMessage scrollHeight st (FileInputChange (Some f)) =
    set_timers (fun q => (q ++ [(0, ReaderOnload (dataURL f))])%list) st.
Proof. intros Himg. unfold step. cbn [handle uploadIfImage]. now rewrite Himg. Qed.

Lemma classList_add_In (c : string) (l : list string) : In c (Dom.classList_add c l).
Proof.
  unfold Dom.classList_add. destruct (existsb (String.eqb c) l) eqn:E.
  - apply existsb_exists in E. destruct E as [x [Hin Hx]].
    apply String.eqb_eq in Hx. now subst x.
  - apply in_or_app. right. now left.
Qed.

Lemma classList_remove_not_In (c : string) (l : list string) :
  ~ In c (Dom.classList_remove c l).
Proof.
  unfold Dom.classList_remove. rewrite <- list_elem_of_In, list_elem_of_filter.
  intros [H _]. now rewrite String.eqb_refl in H.
Qed.

(** X10.  A message and its reply: [sendMessage] records the trimmed input and
    clears the field; the reply is computed when the timer fires, from the
    medication current at that moment.  So a reset between the two makes the
    reply the one for no medication. *)
Theorem reply_is_computed_when_timer_fires (st : State) (random : spec_float) :
  timers st = [] ->
  isEmpty (trim (chatInput_value (page st))) = false ->
  exists reply reply0,
    generateAIResponse toLowerCase (trim (chatInput_value (page st))) st = (Normal reply, st) /\
    generateAIResponse toLowerCase (trim (chatInput_value (page st)))
      (set_currentMedication None st) = (Normal reply0, set_currentMedication None st) /\
    conversationHistory
      (run toLowerCase trim escapeHtml formatMessage scrollHeight st
           [SendMessage; Fire 0 random]) =
      (conversationHistory st ++
       [{| role := user; content := trim (chatInput_value (page st)) |};
        {| role := ai; content := reply |}])%list /\
    chatInput_value
      (page (run toLowerCase trim escapeHtml formatMessage scrollHeight st
                 [SendMessage; Fire 0 random])) = EmptyString /\
    conversationHistory
      (run toLowerCase trim escapeHtml formatMessage scrollHeight st
           [SendMessage; ResetUpload; Fire 0 random]) =
      (conversationHistory st ++
       [{| role := user; content := trim (chatInput_value (page st)) |};
        {| role := ai; content := reply0 |}])%list.
Proof.
  intros Ht Hblank.
  set (message := trim (chatInput_value (page st))) in *.
  destruct (generateAIResponse_pure toLowerCase message st) as [reply Hreply].
  destruct (generateAIResponse_pure toLowerCase message (set_currentMedication None st))
    as [reply0 Hreply0].
  exists reply, reply0. split; [exact Hreply |]. split; [exact Hreply0 |].
  unfold run. cbn [fold_left]. rewrite (step_send st Hblank). fold message. rewrite Ht.
  split; [| split].
  - erewrite step_fire_response;
      [ | reflexivity
        | apply (reply_depends_on_medication_only message reply st); [reflexivity | exact Hreply] ].
    cbn [conversationHistory]. symmetry. apply (List.app_assoc _ [_] [_]).
  - erewrite step_fire_response;
      [ | reflexivity
        | apply (reply_depends_on_medication_only message reply st); [reflexivity | exact Hreply] ].
    reflexivity.
  - erewrite step_fire_response;
      [ | reflexivity
        | apply (reply_depends_on_medication_only message reply0 (set_currentMedication None st));
          [reflexivity | exact Hreply0] ].
    cbn [conversationHistory]. symmetry. apply (List.app_assoc _ [_] [_]).
Qed.

Lemma step_reset (st : State) :
  step toLowerCase trim escapeHtml formatMessage scrollHeight st ResetUpload =
    {| currentMedication := None;
       conversationHistory := conversationHistory st;
       page :=
         Dom.with_fileInput_value EmptyString
           (Dom.with_previewImage_src EmptyString
              (Dom.with_photoPreview_classList (Dom.classList_add "hidden")
                 (Dom.with_uploadZone_classList (Dom.classList_remove "hidden") (page st))));
       timers := timers st |}.
Proof. reflexivity. Qed.

(** X11.  An upload from start to end: the image is read, the preview replaces
    the upload zone, and when the timer fires a record of the catalog
    becomes the current medication and is announced once. *)
Theorem upload_then_recognition (st : State) (f : File) (random0 random : spec_float) :
  timers st = [] ->
  startsWith (type f) "image/" = true ->
  Num.isRandom random = true ->
  exists m st',
    st' = run toLowerCase trim escapeHtml formatMessage scrollHeight st
              [FileInputChange (Some f); Fire 0 random0; Fire 0 random] /\
    In m catalog /\
    currentMedication st' = Some m /\
    conversationHistory st' =
      (conversationHistory st ++ [{| role := ai; content := recognitionMessage m |}])%list /\
    previewImage_src (page st') = dataURL f /\
    In "hidden" (uploadZone_classList (page st')) /\
    ~ In "hidden" (photoPreview_classList (page st')) /\
    timers st' = [].
Proof.
  intros Ht Himg Hr. destruct st as [cm h pg tm]. cbn [timers] in Ht. subst tm.
  unfold run. cbn [fold_left].
  rewrite (step_upload _ f Himg).
  match goal with
  | |- context [step _ _ _ _ _ (set_timers ?g ?s0) (Fire 0 random0)] =>
      rewrite (step_fire_reader (set_timers g s0) 0 0 (dataURL f) random0 eq_refl)
  end.
  cbn [set_timers timers currentMedication conversationHistory page app removeAt take drop].
  match goal with
  | |- context [step _ _ _ _ _ ?s (Fire 0 random)] =>
      destruct (step_fire_recognize s 0 1500 random eq_refl Hr) as [m [Hm ->]]
  end.
  exists m. eexists. split; [reflexivity |].
  cbn [currentMedication conversationHistory page timers]. repeat split; try assumption.
  - cbn. apply classList_add_In.
  - cbn. apply classList_remove_not_In.
Qed.

(** X12.  A reset does not cancel a recognition under way: when [resetUpload] runs
    between the reading of the image and the recognition timer, the timer
    still fires, and a medication is recognized and announced while the
    preview is hidden and its image source empty. *)
Theorem reset_does_not_cancel_recognition
    (st : State) (f : File) (random0 random : spec_float) :
  timers st = [] ->
  startsWith (type f) "image/" = true ->
  Num.isRandom random = true ->
  exists m st',
    st' = run toLowerCase trim escapeHtml formatMessage scrollHeight st
              [FileInputChange (Some f); Fire 0 random0; ResetUpload; Fire 0 random] /\
    In m catalog /\
    currentMedication st' = Some m /\
    conversationHistory st' =
      (conversationHistory st ++ [{| role := ai; content := recognitionMessage m |}])%list /\
    previewImage_src (page st') = EmptyString /\
    In "hidden" (photoPreview_classList (page st')) /\
    ~ In "hidden" (uploadZone_classList (page st')).
Proof.
  intros Ht Himg Hr. destruct st as [cm h pg tm]. cbn [timers] in Ht. subst tm.
  unfold run. cbn [fold_left].
  rewrite (step_upload _ f Himg).
  match goal with
  | |- context [step _ _ _ _ _ (set_timers ?g ?s0) (Fire 0 random0)] =>
      rewrite (step_fire_reader (set_timers g s0) 0 0 (dataURL f) random0 eq_refl)
  end.
  rewrite step_reset.
  cbn [set_timers timers currentMedication conversationHistory page app removeAt take drop].
  match goal with
  | |- context [step _ _ _ _ _ ?s (Fire 0 random)] =>
      destruct (step_fire_recognize s 0 1500 random eq_refl Hr) as [m [Hm ->]]
  end.
  exists m. eexists. split; [reflexivity |].
  cbn [currentMedication conversationHistory page timers]. repeat split; try assumption.
  - cbn. apply classList_add_In.
  - cbn. apply classList_remove_not_In.
Qed.

End Transcript.

(** ** What reaches the page *)

Section Markup.

Variable toLowerCase : string -> string.
Variable trim : string -> string.
Variable scrollHeight : list ChatNode -> Z.

Lemma onlyFormatTags_without_lt (s : string) :
  Render.hasChar "<" s = false -> Render.onlyFormatTags s = true.
Proof.
  induction s as [|c s IH]; [reflexivity |].
  cbn [Render.hasChar Render.onlyFormatTags]. rewrite orb_false_iff. intros [Hc Hs].
  rewrite Hc, (IH Hs). reflexivity.
Qed.

Lemma assistant_texts_format_safely (t : string) :
  In t assistantTexts -> Render.onlyFormatTags (Render.formatMessage t) = true.
Proof.
  assert (H : forallb (fun t => Render.onlyFormatTags (Render.formatMessage t))
                      assistantTexts = true) by (vm_compute; reflexivity).
  rewrite forallb_forall in H. apply H.
Qed.

(** X13.  No markup injection: with the page's own [escapeHtml] and
    [formatMessage], every node of the chat is the [message-content]
    wrapper around a body in which each [<] opens [<strong>], [</strong>]
    or [<br>].  What the user types reaches the page escaped; what the
    assistant says is one of its canned texts. *)
Theorem chat_nodes_carry_no_foreign_markup (p : Page) (es : list Event) :
  chatMessages_children p = [] ->
  Forall (fun node =>
            exists body,
              innerHTML node = messageContent body /\
              Render.onlyFormatTags body = true)
         (chatMessages_children
            (page (run toLowerCase trim Render.escapeHtml Render.formatMessage scrollHeight
                       (initialState p) es))).
Proof.
  intros Hp.
  destruct (run_mirrors_history toLowerCase trim Render.escapeHtml
              Render.formatMessage scrollHeight (initialState p) es) as [added [Hh Hc]].
  pose proof (run_keeps_assistant_texts toLowerCase trim Render.escapeHtml
                Render.formatMessage scrollHeight p es) as Hai.
  rewrite Hc. rewrite Hh in Hai. cbn [initialState page conversationHistory app] in *.
  rewrite Hp. cbn [app]. clear Hh Hc.
  induction added as [|msg added IH]; [constructor |].
  apply List.Forall_cons_iff in Hai. destruct Hai as [Hmsg Hrest].
  cbn [map]. apply List.Forall_cons; [| now apply IH].
  unfold renderEntry. destruct (role msg) eqn:Hrole; cbn [innerHTML].
  - eexists. split; [reflexivity |]. apply onlyFormatTags_without_lt.
    apply (escapeHtml_no_angle_aux "<"); auto.
  - eexists. split; [reflexivity |]. apply assistant_texts_format_safely. now apply Hmsg.
Qed.

End Markup.

Lemma chat_nodes_carry_no_foreign_markup_witness :
  chatMessages_children emptyPage = [] /\
  Forall (fun node =>
            exists body,
              innerHTML node = messageContent body /\
              Render.onlyFormatTags body = true)
         (chatMessages_children
            (page (run asciiLower (fun s => s) Render.escapeHtml Render.formatMessage
                       (fun _ => 0) (initialState emptyPage)
                       [Typed "<img src=x onerror=alert(1)> **hi**"; SendMessage;
                        Fire 0 half]))).
Proof.
  split; [reflexivity |].
  apply (chat_nodes_carry_no_foreign_markup asciiLower (fun s => s) (fun _ => 0) emptyPage).
  reflexivity.
Defined.

Lemma no_recognition_without_image_witness :
  Forall carriesNoImage
    [Typed "hello"; SendMessage; Fire 0 half;
     FileInputChange (Some {| type := "application/pdf"; dataURL := "data:application/pdf;base64,JVBERi0=" |});
     Drop None; Fire 1 half] /\
  currentMedication
    (run asciiLower (fun s => s) Render.escapeHtml Render.formatMessage (fun _ => 0)
       (initialState emptyPage)
       [Typed "hello"; SendMessage; Fire 0 half;
        FileInputChange (Some {| type := "application/pdf"; dataURL := "data:application/pdf;base64,JVBERi0=" |});
        Drop None; Fire 1 half]) = None.
Proof.
  assert (H : Forall carriesNoImage
    [Typed "hello"; SendMessage; Fire 0 half;
     FileInputChange (Some {| type := "application/pdf"; dataURL := "data:application/pdf;base64,JVBERi0=" |});
     Drop None; Fire 1 half]).
  { repeat (apply List.Forall_cons; [first [exact I | reflexivity] |]). apply List.Forall_nil. }
  split; [exact H |].
  apply (no_recognition_without_image asciiLower (fun s => s) Render.escapeHtml
           Render.formatMessage (fun _ => 0) emptyPage _ H).
Defined.

Lemma reply_is_computed_when_timer_fires_witness :
  timers (set_page (Dom.with_chatInput_value "Any side effects?") lisinoprilState) = [] /\
  isEmpty "Any side effects?" = false /\
  exists reply reply0,
    conversationHistory
      (run asciiLower (fun s => s) Render.escapeHtml Render.formatMessage (fun _ => 0)
           (set_page (Dom.with_chatInput_value "Any side effects?") lisinoprilState)
           [SendMessage; Fire 0 half]) =
      [{| role := user; content := "Any side effects?" |}; {| role := ai; content := reply |}] /\
    conversationHistory
      (run asciiLower (fun s => s) Render.escapeHtml Render.formatMessage (fun _ => 0)
           (set_page (Dom.with_chatInput_value "Any side effects?") lisinoprilState)
           [SendMessage; ResetUpload; Fire 0 half]) =
      [{| role := user; content := "Any side effects?" |}; {| role := ai; content := reply0 |}].
Proof.
  split; [reflexivity |]. split; [reflexivity |].
  destruct (reply_is_computed_when_timer_fires asciiLower (fun s => s) Render.escapeHtml
              Render.formatMessage (fun _ => 0)
              (set_page (Dom.with_chatInput_value "Any side effects?") lisinoprilState)
              half eq_refl eq_refl)
    as [reply [reply0 [_ [_ [H1 [_ H2]]]]]].
  exists reply, reply0. split; [exact H1 | exact H2].
Defined.

Lemma upload_then_recognition_witness :
  timers (initialState emptyPage) = [] /\
  startsWith (type pillPhoto) "image/" = true /\
  Num.isRandom half = true /\
  exists m,
    In m catalog /\
    currentMedication
      (run asciiLower (fun s => s) Render.escapeHtml Render.formatMessage (fun _ => 0)
           (initialState emptyPage)
           [FileInputChange (Some pillPhoto); Fire 0 half; Fire 0 half]) = Some m.
Proof.
  split; [reflexivity |]. split; [reflexivity |]. split; [reflexivity |].
  destruct (upload_then_recognition asciiLower (fun s => s) Render.escapeHtml
              Render.formatMessage (fun _ => 0) (initialState emptyPage) pillPhoto half half
              eq_refl eq_refl eq_refl)
    as [m [st' [-> [Hm [Hcm _]]]]].
  exists m. split; [exact Hm | exact Hcm].
Defined.

Lemma reset_does_not_cancel_recognition_witness :
  timers (initialState emptyPage) = [] /\
  startsWith (type pillPhoto) "image/" = true /\
  Num.isRandom half = true /\
  exists m,
    In m catalog /\
    currentMedication
      (run asciiLower (fun s => s) Render.escapeHtml Render.formatMessage (fun _ => 0)
           (initialState emptyPage)
           [FileInputChange (Some pillPhoto); Fire 0 half; ResetUpload; Fire 0 half]) = Some m /\
    previewImage_src
      (page (run asciiLower (fun s => s) Render.escapeHtml Render.formatMessage (fun _ => 0)
                 (initialState emptyPage)
                 [FileInputChange (Some pillPhoto); Fire 0 half; ResetUpload; Fire 0 half]))
      = EmptyString.
Proof.
  split; [reflexivity |]. split; [reflexivity |]. split; [reflexivity |].
  destruct (reset_does_not_cancel_recognition asciiLower (fun s => s) Render.escapeHtml
              Render.formatMessage (fun _ => 0) (initialState emptyPage) pillPhoto half half
              eq_refl eq_refl eq_refl)
    as [m [st' [-> [Hm [Hcm [_ [Hsrc _]]]]]]].
  exists m. split; [exact Hm |]. split; [exact Hcm | exact Hsrc].
Defined.

(** ** The dashboard chat *)

Section DashboardChat.

Import Dashboard.

Variable trim : string -> string.
Variable initialOf : string -> option string.
Variable scrollHeight : list Node -> Z.

Lemma splitParagraphs_cons (c : ascii) (s : string) :
  splitParagraphs (String c s) =
    match s with
    | String c2 s'' =>
        if Ascii.eqb c "010" && Ascii.eqb c2 "010" then EmptyString :: splitParagraphs s''
        else match splitParagraphs s with
             | [] => [String c EmptyString]
             | p :: ps => String c p :: ps
             end
    | EmptyString => [String c EmptyString]
    end.
Proof. destruct s; reflexivity. Qed.

Lemma splitParagraphs_nonempty (s : string) : splitParagraphs s <> [].
Proof.
  destruct s as [|c [|c2 s]]; cbn [splitParagraphs]; try discriminate.
  destruct (Ascii.eqb c "010" && Ascii.eqb c2 "010"); [discriminate |].
  destruct (match s with
            | EmptyString => _
            | String _ _ => _
            end); discriminate.
Qed.

Lemma joinParagraphs_cons (c : ascii) (p : string) (ps : list string) :
  joinParagraphs (String c p :: ps) = String c (joinParagraphs (p :: ps)).
Proof. destruct ps; reflexivity. Qed.

Lemma join_split_aux (s : string) :
  joinParagraphs (splitParagraphs s) = s /\
  forall c, joinParagraphs (splitParagraphs (String c s)) = String c s.
Proof.
  induction s as [|a s [IH1 IH2]].
  - split; [reflexivity | intros c; reflexivity].
  - split; [apply IH2 |]. intros c. rewrite splitParagraphs_cons.
    destruct (Ascii.eqb c "010" && Ascii.eqb a "010") eqn:Hsep.
    + apply andb_true_iff in Hsep. destruct Hsep as [Hc Ha].
      apply Ascii.eqb_eq in Hc, Ha. subst c a.
      destruct (splitParagraphs s) as [|p ps] eqn:Hs;
        [now destruct (splitParagraphs_nonempty s) |].
      change (joinParagraphs (EmptyString :: p :: ps))
        with (EmptyString ^^ LF ^^ LF ^^ joinParagraphs (p :: ps)).
      rewrite IH1. reflexivity.
    + specialize (IH2 a).
      destruct (splitParagraphs (String a s)) as [|p ps] eqn:Hs;
        [now destruct (splitParagraphs_nonempty (String a s)) |].
      now rewrite joinParagraphs_cons, IH2.
Qed.

Lemma head_shape (c : ascii) (s : string) :
  exists ps,
    splitParagraphs (String c s) = EmptyString :: ps \/
    exists p, splitParagraphs (String c s) = String c p :: ps.
Proof.
  rewrite splitParagraphs_cons. destruct s as [|c2 s''].
  - exists []. right. now exists EmptyString.
  - destruct (Ascii.eqb c "010" && Ascii.eqb c2 "010").
    + eexists. now left.
    + destruct (splitParagraphs (String c2 s'')) as [|p ps].
      * exists []. right. now exists EmptyString.
      * exists ps. right. now exists p.
Qed.

Lemma no_blank_line_aux (s : string) :
  Forall (fun p => includes p (LF ^^ LF) = false) (splitParagraphs s) /\
  forall c, Forall (fun p => includes p (LF ^^ LF) = false) (splitParagraphs (String c s)).
Proof.
  induction s as [|a s [IH1 IH2]].
  - split; [now repeat constructor |]. intros c. cbn [splitParagraphs].
    apply Forall_singleton. unfold LF, includes, startsWith.
    cbn [String.append stripPrefix]. now destruct (Ascii.eqb "010" c).
  - split; [apply IH2 |]. intros c. rewrite splitParagraphs_cons.
    destruct (Ascii.eqb c "010" && Ascii.eqb a "010") eqn:Hsep.
    + apply List.Forall_cons; [reflexivity | exact IH1].
    + specialize (IH2 a). destruct (head_shape a s) as [ps0 Hhead].
      destruct (splitParagraphs (String a s)) as [|p ps] eqn:Hs;
        [now destruct (splitParagraphs_nonempty (String a s)) |].
      apply List.Forall_cons_iff in IH2. destruct IH2 as [Hp Hps].
      apply List.Forall_cons; [| exact Hps].
      cbn [includes]. rewrite Hp, orb_false_r.
      unfold startsWith, LF. cbn [String.append stripPrefix].
      destruct (Ascii.eqb "010" c) eqn:Hc; [| reflexivity].
      destruct Hhead as [[= -> _] | [p0 [= -> _]]]; [reflexivity |].
      destruct (Ascii.eqb "010" a) eqn:Ha; [| reflexivity].
      rewrite (Ascii.eqb_sym c), (Ascii.eqb_sym a), Hc, Ha in Hsep. discriminate.
Qed.

(** X14.  The paragraphs of [addMessage]: cutting a text at its blank lines loses
    nothing (joining the pieces with blank lines gives the text back) and
    leaves no blank line inside a piece. *)
Theorem paragraphs_split_at_blank_lines (content : string) :
  joinParagraphs (splitParagraphs content) = content /\
  Forall (fun p => includes p (LF ^^ LF) = false) (splitParagraphs content).
Proof. split; [apply join_split_aux | apply no_blank_line_aux]. Qed.

(** *** The handlers *)

Lemma indicators_app (c d : list Node) :
  indicators (c ++ d) = (indicators c + indicators d)%nat.
Proof. unfold indicators. now rewrite List.filter_app, length_app. Qed.

Lemma indicators_remove (c : list Node) :
  indicators (removeFirstIndicator c) = Nat.pred (indicators c).
Proof.
  induction c as [|n c IH]; [reflexivity |].
  destruct n; [| reflexivity].
  cbn [removeFirstIndicator]. unfold indicators in *. cbn [List.filter isIndicator].
  exact IH.
Qed.

Lemma removeFirstIndicator_none (c : list Node) :
  indicators c = 0%nat -> removeFirstIndicator c = c.
Proof.
  induction c as [|n c IH]; [reflexivity |].
  destruct n; [| discriminate].
  unfold indicators in *. cbn [List.filter isIndicator removeFirstIndicator].
  intros H. now rewrite IH.
Qed.

Lemma removeFirstIndicator_app (c d : list Node) :
  indicators c = 0%nat ->
  removeFirstIndicator (c ++ d) = (c ++ removeFirstIndicator d)%list.
Proof.
  induction c as [|n c IH]; [reflexivity |].
  destruct n; [| discriminate].
  unfold indicators in *. cbn [List.filter isIndicator removeFirstIndicator app].
  intros H. now rewrite IH.
Qed.

Lemma messageDiv_tidy (text : string) (isUser : bool) (avatar now : string) :
  tidy trim (messageDiv trim text isUser avatar now).
Proof.
  unfold messageDiv, tidy. apply List.Forall_forall. intros p Hp.
  apply List.filter_In in Hp. destruct Hp as [Hin Hkeep]. split.
  - apply negb_true_iff in Hkeep. now destruct (trim p).
  - pose proof (proj2 (no_blank_line_aux text)) as _.
    pose proof (proj1 (no_blank_line_aux text)) as H.
    rewrite List.Forall_forall in H. now apply H.
Qed.

Lemma tidy_remove (c : list Node) :
  Forall (tidy trim) c -> Forall (tidy trim) (removeFirstIndicator c).
Proof.
  induction 1 as [|n c Hn Hc IH]; [constructor |].
  destruct n; cbn [removeFirstIndicator]; [| exact Hc].
  apply List.Forall_cons; assumption.
Qed.

(** What the second half of the submit handler leaves behind. *)
Lemma submitSettle_run (fetched : Fetched) (now : string) (st : State) :
  exists shown,
    submitSettle trim initialOf scrollHeight fetched now st =
      (Normal tt,
       with_focus
         (with_disabled false
            (with_scrollTop
               (scrollHeight (shown ++ [messageDiv trim (shownText fetched) false "AI" now]))
               (with_chat
                  (fun _ => (shown ++ [messageDiv trim (shownText fetched) false "AI" now])%list)
                  st)))) /\
    (shown = removeFirstIndicator (chatMessages st) \/
     shown = removeFirstIndicator (removeFirstIndicator (chatMessages st))).
Proof.
  destruct fetched as [|[|[text|] refused]].
  - eexists. split; [reflexivity | now left].
  - eexists. split; [reflexivity | now right].
  - eexists. split; [destruct refused; reflexivity | now left].
  - eexists. split; [destruct refused; reflexivity | now right].
Qed.

Lemma submitStart_run (st : State) (u : User) (avatar now : string) :
  currentUser st = Some u ->
  initialOf (email u) = Some avatar ->
  isEmpty (trim (chatInput_value st)) = false ->
  exists st',
    submitStart trim initialOf scrollHeight now st = (Normal tt, st') /\
    chatMessages st' =
      (chatMessages st ++
       [messageDiv trim (trim (chatInput_value st)) true avatar now; TypingIndicator])%list /\
    chatInput_value st' = EmptyString /\
    sendBtn_disabled st' = true /\ chatInput_disabled st' = true /\
    inFlight st' = (inFlight st ++ [trim (chatInput_value st)])%list.
Proof.
  intros Hu Ha Hblank. unfold submitStart, seq at 1, read. rewrite Hblank.
  unfold seq at 1, addMessage, seq at 1, seq at 1, read. rewrite Hu, Ha.
  eexists. split; [reflexivity |]. cbn. rewrite <- List.app_assoc. repeat split; reflexivity.
Qed.

Lemma submitStart_blank (st : State) (now : string) :
  isEmpty (trim (chatInput_value st)) = true ->
  submitStart trim initialOf scrollHeight now st = (Normal tt, st).
Proof. intros H. unfold submitStart, seq at 1, read. now rewrite H. Qed.

Lemma submitStart_throws (st : State) (now : string) :
  isEmpty (trim (chatInput_value st)) = false ->
  match currentUser st with
  | Some u => initialOf (email u) = None
  | None => True
  end ->
  submitStart trim initialOf scrollHeight now st = (Throw, st).
Proof.
  intros Hblank Hu. unfold submitStart, seq at 1, read. rewrite Hblank.
  unfold addMessage, seq, read. destruct (currentUser st) as [u|]; [| reflexivity].
  now rewrite Hu.
Qed.

Lemma settled_idle (st : State) (fetched : Fetched) (now : string) :
  inFlight st = [] ->
  handle trim initialOf scrollHeight (Settled fetched now) st = (Normal tt, st).
Proof. intros H. cbn [handle]. unfold seq, read. now rewrite H. Qed.

Lemma settled_busy (st : State) (fetched : Fetched) (now m : string) (q : list string) :
  inFlight st = m :: q ->
  handle trim initialOf scrollHeight (Settled fetched now) st =
    submitSettle trim initialOf scrollHeight fetched now (with_inFlight (fun _ => q) st).
Proof. intros H. cbn [handle]. unfold seq, read, write. now rewrite H. Qed.

(** The three ways a handler can end. *)
Lemma step_cases (st : State) (e : Event) :
  (chatMessages (step trim initialOf scrollHeight st e) = chatMessages st /\
   inFlight (step trim initialOf scrollHeight st e) = inFlight st /\
   sendBtn_disabled (step trim initialOf scrollHeight st e) = sendBtn_disabled st /\
   chatInput_disabled (step trim initialOf scrollHeight st e) = chatInput_disabled st) \/
  (exists text avatar now message,
      chatMessages (step trim initialOf scrollHeight st e) =
        (chatMessages st ++ [messageDiv trim text true avatar now; TypingIndicator])%list /\
      inFlight (step trim initialOf scrollHeight st e) = (inFlight st ++ [message])%list) \/
  (exists shown text now,
      chatMessages (step trim initialOf scrollHeight st e) =
        (shown ++ [messageDiv trim text false "AI" now])%list /\
      (shown = removeFirstIndicator (chatMessages st) \/
       shown = removeFirstIndicator (removeFirstIndicator (chatMessages st))) /\
      S (length (inFlight (step trim initialOf scrollHeight st e))) = length (inFlight st) /\
      sendBtn_disabled (step trim initialOf scrollHeight st e) = false /\
      chatInput_disabled (step trim initialOf scrollHeight st e) = false).
Proof.
  unfold step.
  destruct e as [[u|] | | text | now | fetched now];
    try (left; repeat split; reflexivity).
  - cbn [handle]. destruct (isEmpty (trim (chatInput_value st))) eqn:Hblank.
    { rewrite (submitStart_blank st now Hblank). left. repeat split; reflexivity. }
    destruct (currentUser st) as [u|] eqn:Hu.
    + destruct (initialOf (email u)) as [a|] eqn:Ha.
      * destruct (submitStart_run st u a now Hu Ha Hblank)
          as [st' [-> [Hchat [_ [_ [_ Hfl]]]]]].
        right. left. cbn [snd].
        exists (trim (chatInput_value st)), a, now, (trim (chatInput_value st)).
        split; assumption.
      * rewrite (submitStart_throws st now Hblank) by (now rewrite Hu).
        left. repeat split; reflexivity.
    + rewrite (submitStart_throws st now Hblank) by (now rewrite Hu).
      left. repeat split; reflexivity.
  - destruct (inFlight st) as [|m q] eqn:Hq.
    { rewrite (settled_idle st fetched now Hq). left. cbn [snd]. rewrite Hq.
      repeat split; reflexivity. }
    rewrite (settled_busy st fetched now m q Hq).
    destruct (submitSettle_run fetched now (with_inFlight (fun _ => q) st))
      as [shown [-> Hshown]].
    right. right. exists shown, (shownText fetched), now.
    cbn [snd chatMessages sendBtn_disabled chatInput_disabled inFlight
         with_focus with_disabled with_scrollTop with_chat with_inFlight] in *.
    repeat split; try reflexivity. exact Hshown.
Qed.

(** X15.  One exchange with the backend.  After the submit the user's message is
    shown, the field is empty, the controls are disabled and the typing
    indicator is on.  When the request settles, whatever came back, the
    indicator is gone, the controls are enabled again, the field has the
    focus, and one assistant node is shown: the [response] text of the
    body, or the apology when the request failed or the body has no such
    text.  The [is_refused] flag of the body changes nothing. *)
Theorem one_exchange
    (st : State) (u : User) (avatar now1 now2 : string) (fetched : Fetched) :
  currentUser st = Some u ->
  initialOf (email u) = Some avatar ->
  isEmpty (trim (chatInput_value st)) = false ->
  indicators (chatMessages st) = 0%nat ->
  inFlight st = [] ->
  exists mid fin,
    mid = run trim initialOf scrollHeight st [Submit now1] /\
    fin = run trim initialOf scrollHeight st [Submit now1; Settled fetched now2] /\
    chatMessages mid =
      (chatMessages st ++
       [messageDiv trim (trim (chatInput_value st)) true avatar now1; TypingIndicator])%list /\
    chatInput_value mid = EmptyString /\
    sendBtn_disabled mid = true /\ chatInput_disabled mid = true /\
    chatMessages fin =
      (chatMessages st ++
       [messageDiv trim (trim (chatInput_value st)) true avatar now1;
        messageDiv trim (shownText fetched) false "AI" now2])%list /\
    sendBtn_disabled fin = false /\ chatInput_disabled fin = false /\
    chatInput_focused fin = true /\
    inFlight fin = [].
Proof.
  intros Hu Ha Hblank Hind Hq.
  destruct (submitStart_run st u avatar now1 Hu Ha Hblank)
    as [mid [Emid [Hchat [Hin [Hs [Hc Hfl]]]]]].
  assert (Rmid : run trim initialOf scrollHeight st [Submit now1] = mid).
  { unfold run, step. cbn [fold_left handle]. now rewrite Emid. }
  assert (Rfin : exists fin,
            step trim initialOf scrollHeight mid (Settled fetched now2) = fin /\
            chatMessages fin =
              (chatMessages st ++
               [messageDiv trim (trim (chatInput_value st)) true avatar now1;
                messageDiv trim (shownText fetched) false "AI" now2])%list /\
            sendBtn_disabled fin = false /\ chatInput_disabled fin = false /\
            chatInput_focused fin = true /\ inFlight fin = []).
  { unfold step.
    rewrite (settled_busy mid fetched now2 (trim (chatInput_value st)) [])
      by (now rewrite Hfl, Hq).
    destruct (submitSettle_run fetched now2 (with_inFlight (fun _ => []) mid))
      as [shown [-> Hshown]].
    eexists. split; [reflexivity |].
    cbn [snd chatMessages sendBtn_disabled chatInput_disabled chatInput_focused inFlight
         with_focus with_disabled with_scrollTop with_chat with_inFlight with_input] in *.
    rewrite Hchat in Hshown.
    assert (shown = (chatMessages st ++
                     [messageDiv trim (trim (chatInput_value st)) true avatar now1])%list) as ->.
    { assert (R : removeFirstIndicator
                    (chatMessages st ++
                     [messageDiv trim (trim (chatInput_value st)) true avatar now1;
                      TypingIndicator])%list =
                  (chatMessages st ++
                   [messageDiv trim (trim (chatInput_value st)) true avatar now1])%list)
        by (rewrite (removeFirstIndicator_app _ _ Hind); reflexivity).
      destruct Hshown as [-> | ->]; rewrite R; [reflexivity |].
      apply removeFirstIndicator_none. rewrite indicators_app, Hind. reflexivity. }
    rewrite <- List.app_assoc. repeat split; reflexivity. }
  destruct Rfin as [fin [Efin Hfin]].
  exists mid, fin. split; [now rewrite Rmid |]. split.
  { change (run trim initialOf scrollHeight st [Submit now1; Settled fetched now2])
      with (step trim initialOf scrollHeight
              (run trim initialOf scrollHeight st [Submit now1]) (Settled fetched now2)).
    now rewrite Rmid, Efin. }
  repeat (split; [assumption |]). exact Hfin.
Qed.

(** X16.  A submit before [checkAuth] has set the user: the handler throws at the
    avatar, before anything is written.  The page is as it was, the message
    still in the field, and no request is made. *)
Theorem submit_without_user_throws (st : State) (now : string) :
  currentUser st = None ->
  isEmpty (trim (chatInput_value st)) = false ->
  handle trim initialOf scrollHeight (Submit now) st = (Throw, st).
Proof.
  intros Hu Hblank. cbn [handle]. apply submitStart_throws; [exact Hblank |].
  now rewrite Hu.
Qed.

(** What every handler keeps: the shown nodes are tidy, there are no more
    typing indicators than requests in flight, and disabled controls mean
    a request in flight. *)
Lemma step_keeps_page_sound (st : State) (e : Event) :
  Forall (tidy trim) (chatMessages st) /\
  (indicators (chatMessages st) <= length (inFlight st))%nat /\
  (sendBtn_disabled st = true \/ chatInput_disabled st = true -> inFlight st <> []) ->
  Forall (tidy trim) (chatMessages (step trim initialOf scrollHeight st e)) /\
  (indicators (chatMessages (step trim initialOf scrollHeight st e)) <=
   length (inFlight (step trim initialOf scrollHeight st e)))%nat /\
  (sendBtn_disabled (step trim initialOf scrollHeight st e) = true \/
   chatInput_disabled (step trim initialOf scrollHeight st e) = true ->
   inFlight (step trim initialOf scrollHeight st e) <> []).
Proof.
  intros [Ht [Hi Hd]].
  destruct (step_cases st e)
    as [[-> [-> [-> ->]]] | [[text [a [now [m [-> ->]]]]] | [shown [text [now [-> [Hs [Hl [-> ->]]]]]]]]].
  - auto.
  - split; [| split].
    + apply Forall_app. split; [exact Ht |].
      apply List.Forall_cons; [apply messageDiv_tidy |]. now apply Forall_singleton.
    + rewrite !indicators_app, length_app. cbn. lia.
    + intros _ E. now destruct (inFlight st).
  - split; [| split].
    + apply Forall_app. split; [| apply Forall_singleton, messageDiv_tidy].
      destruct Hs as [-> | ->]; repeat apply tidy_remove; exact Ht.
    + rewrite indicators_app.
      assert (indicators shown <= Nat.pred (indicators (chatMessages st)))%nat.
      { destruct Hs as [-> | ->]; rewrite !indicators_remove; lia. }
      cbn. lia.
    + intros [H | H]; discriminate.
Qed.

Lemma run_keeps_page_sound (es : list Event) (st : State) :
  Forall (tidy trim) (chatMessages st) /\
  (indicators (chatMessages st) <= length (inFlight st))%nat /\
  (sendBtn_disabled st = true \/ chatInput_disabled st = true -> inFlight st <> []) ->
  Forall (tidy trim) (chatMessages (run trim initialOf scrollHeight st es)) /\
  (indicators (chatMessages (run trim initialOf scrollHeight st es)) <=
   length (inFlight (run trim initialOf scrollHeight st es)))%nat /\
  (sendBtn_disabled (run trim initialOf scrollHeight st es) = true \/
   chatInput_disabled (run trim initialOf scrollHeight st es) = true ->
   inFlight (run trim initialOf scrollHeight st es) <> []).
Proof.
  revert st. induction es as [|e es IH]; intros st H; [exact H |].
  unfold run. cbn [fold_left]. apply IH. now apply step_keeps_page_sound.
Qed.

(** X17.  Every message the dashboard shows has only paragraphs that [trim] does
    not empty, none with a blank line inside. *)
Theorem shown_messages_are_tidy (es : list Event) :
  Forall (tidy trim) (chatMessages (run trim initialOf scrollHeight initial es)).
Proof.
  apply (run_keeps_page_sound es initial). split; [constructor |].
  split; [cbn; lia | intros [H | H]; discriminate].
Qed.

(** X18.  The page is never left waiting for nothing: when no request is in
    flight, the send button and the input are enabled and no typing
    indicator is shown. *)
Theorem idle_page_is_usable (es : list Event) :
  inFlight (run trim initialOf scrollHeight initial es) = [] ->
  sendBtn_disabled (run trim initialOf scrollHeight initial es) = false /\
  chatInput_disabled (run trim initialOf scrollHeight initial es) = false /\
  indicators (chatMessages (run trim initialOf scrollHeight initial es)) = 0%nat.
Proof.
  intros Hq.
  destruct (run_keeps_page_sound es initial) as [_ [Hi Hd]].
  { split; [constructor |]. split; [cbn; lia | intros [H | H]; discriminate]. }
  rewrite Hq in Hi, Hd. cbn [length] in Hi.
  repeat split.
  - destruct (sendBtn_disabled _); [exfalso; apply Hd; auto | reflexivity].
  - destruct (chatInput_disabled _); [exfalso; apply Hd; auto | reflexivity].
  - lia.
Qed.

End DashboardChat.

Lemma one_exchange_witness :
  Dashboard.currentUser Dashboard.asking = Some {| Dashboard.email := "ana@example.org" |} /\
  Dashboard.asciiInitial "ana@example.org" = Some "A" /\
  isEmpty (Dashboard.chatInput_value Dashboard.asking) = false /\
  Dashboard.indicators (Dashboard.chatMessages Dashboard.asking) = 0%nat /\
  Dashboard.inFlight Dashboard.asking = [] /\
  exists fin,
    fin = Dashboard.run (fun s => s) Dashboard.asciiInitial (fun _ => 0) Dashboard.asking
            [Dashboard.Submit "10:41 AM";
             Dashboard.Settled (Dashboard.Json (Dashboard.JValue None true)) "10:41 AM"] /\
    Dashboard.chatMessages fin =
      [Dashboard.MessageNode "chat-message user-message" "A"
         ["Can I take aspirin with food?"] "10:41 AM";
       Dashboard.MessageNode "chat-message ai-message" "AI" [Dashboard.apology] "10:41 AM"] /\
    Dashboard.sendBtn_disabled fin = false.
Proof.
  split; [reflexivity |]. split; [reflexivity |]. split; [reflexivity |].
  split; [reflexivity |]. split; [reflexivity |].
  destruct (one_exchange (fun s => s) Dashboard.asciiInitial (fun _ => 0) Dashboard.asking
              {| Dashboard.email := "ana@example.org" |} "A" "10:41 AM" "10:41 AM"
              (Dashboard.Json (Dashboard.JValue None true))
              eq_refl eq_refl eq_refl eq_refl eq_refl)
    as [mid [fin [_ [Efin [_ [_ [_ [_ [Hchat [Hs _]]]]]]]]]].
  exists fin. split; [exact Efin |]. split; [exact Hchat | exact Hs].
Defined.

Lemma submit_without_user_throws_witness :
  Dashboard.currentUser (Dashboard.with_input "hello" Dashboard.initial) = None /\
  isEmpty "hello" = false /\
  Dashboard.handle (fun s => s) Dashboard.asciiInitial (fun _ => 0)
    (Dashboard.Submit "10:41 AM") (Dashboard.with_input "hello" Dashboard.initial)
    = (Throw, Dashboard.with_input "hello" Dashboard.initial).
Proof.
  split; [reflexivity |]. split; [reflexivity |].
  apply (submit_without_user_throws (fun s => s) Dashboard.asciiInitial (fun _ => 0)
           (Dashboard.with_input "hello" Dashboard.initial) "10:41 AM");
    reflexivity.
Defined.

Lemma idle_page_is_usable_witness :
  Dashboard.inFlight
    (Dashboard.run (fun s => s) Dashboard.asciiInitial (fun _ => 0) Dashboard.initial
       [Dashboard.AuthChecked (Some {| Dashboard.email := "ana@example.org" |});
        Dashboard.Typed "hello"; Dashboard.Submit "10:41 AM";
        Dashboard.Settled Dashboard.Failed "10:42 AM"]) = [] /\
  Dashboard.sendBtn_disabled
    (Dashboard.run (fun s => s) Dashboard.asciiInitial (fun _ => 0) Dashboard.initial
       [Dashboard.AuthChecked (Some {| Dashboard.email := "ana@example.org" |});
        Dashboard.Typed "hello"; Dashboard.Submit "10:41 AM";
        Dashboard.Settled Dashboard.Failed "10:42 AM"]) = false.
Proof.
  split; [reflexivity |].
  apply (idle_page_is_usable (fun s => s) Dashboard.asciiInitial (fun _ => 0)
           [Dashboard.AuthChecked (Some {| Dashboard.email := "ana@example.org" |});
            Dashboard.Typed "hello"; Dashboard.Submit "10:41 AM";
            Dashboard.Settled Dashboard.Failed "10:42 AM"]).
  reflexivity.
Defined.

(** ** More on the start-up script *)

Section StartUpMore.

Import StartScript.

(** X19.  The key check looks at the line through the pattern only: text before
    the key's name or after its value does not change a line that passes.
    A commented-out assignment, or a longer variable name that ends in
    [GEMINI_API_KEY], counts as the key being set. *)
Theorem key_check_ignores_context (before line after : string) :
  grepLine line = true -> grepLine (before ^^ line ^^ after) = true.
Proof.
  rewrite !grepLine_spec. intros [p [v [c [q [-> Hc]]]]].
  exists (before ^^ p), v, c, (q ^^ after). split; [| exact Hc].
  rewrite !append_assoc. cbn [String.append]. reflexivity.
Qed.

Lemma key_check_ignores_context_witness :
  grepLine "GEMINI_API_KEY=abc" = true /\
  grepLine ("# " ^^ "GEMINI_API_KEY=abc" ^^ "  # old key") = true.
Proof.
  split; [reflexivity |].
  apply (key_check_ignores_context "# " "GEMINI_API_KEY=abc" "  # old key"). reflexivity.
Defined.

Lemma grepLine_underscores (v : string) : onlyUnderscores v = true -> grepLine v = false.
Proof.
  induction v as [|c v IH]; [reflexivity |].
  cbn [onlyUnderscores]. rewrite andb_true_iff. intros [Hc Hv].
  apply Ascii.eqb_eq in Hc. subst c.
  change (grepLine (String "_" v))
    with (match stripPrefix KEY (String "_" v) with
          | Some rest => anyThenNonUnderscore rest
          | None => false
          end || grepLine v).
  now rewrite (IH Hv).
Qed.

Lemma anyThenNonUnderscore_underscores (v : string) :
  onlyUnderscores v = true -> anyThenNonUnderscore v = false.
Proof.
  induction v as [|c v IH]; [reflexivity |].
  cbn [onlyUnderscores anyThenNonUnderscore]. rewrite andb_true_iff. intros [Hc Hv].
  now rewrite Hc, (IH Hv).
Qed.

Lemma lines_single (s : string) : Render.hasChar "010" s = false -> lines s = [s].
Proof.
  induction s as [|c s IH]; [reflexivity |].
  cbn [Render.hasChar lines]. rewrite orb_false_iff. intros [Hc Hs].
  now rewrite Hc, (IH Hs).
Qed.

Lemma underscores_no_LF (v : string) :
  onlyUnderscores v = true -> Render.hasChar "010" v = false.
Proof.
  induction v as [|c v IH]; [reflexivity |].
  cbn [onlyUnderscores Render.hasChar]. rewrite andb_true_iff. intros [Hc Hv].
  apply Ascii.eqb_eq in Hc. subst c. now rewrite (IH Hv).
Qed.

Lemma lines_app_LF (s rest : string) :
  Render.hasChar "010" s = false -> lines (s ^^ LF ^^ rest) = s :: lines rest.
Proof.
  induction s as [|c s IH]; [reflexivity |].
  cbn [Render.hasChar]. rewrite orb_false_iff. intros [Hc Hs].
  cbn [String.append lines]. now rewrite Hc, (IH Hs).
Qed.

Lemma grepLine_key_underscores (value : string) :
  onlyUnderscores value = true -> grepLine (KEY ^^ value) = false.
Proof.
  intros Hv. unfold KEY. cbn [String.append].
  repeat match goal with
         | |- grepLine (String ?a ?l) = false =>
             change (grepLine (String a l))
               with (match stripPrefix KEY (String a l) with
                     | Some rest => anyThenNonUnderscore rest
                     | None => false
                     end || grepLine l);
             apply orb_false_iff; split; [| idtac]
         end.
  all: try reflexivity.
  - change (stripPrefix KEY (String "G" (String "E" (String "M" (String "I" (String "N"
             (String "I" (String "_" (String "A" (String "P" (String "I" (String "_"
             (String "K" (String "E" (String "Y" (String "=" value))))))))))))))))
      with (Some value).
    now apply anyThenNonUnderscore_underscores.
  - now apply grepLine_underscores.
Qed.

(** X20.  A key whose value is empty or made of underscores only is taken as not
    set.  With [.env] holding that line, ended by a line feed or not, the
    script exits with code 1; so it does when further lines follow and none
    of them passes the key check. *)
Theorem unset_key_is_rejected (value rest : string) (env : Env) :
  onlyUnderscores value = true ->
  venv env = true ->
  dotenv env = Some (KEY ^^ value) \/
  dotenv env = Some (KEY ^^ value ^^ LF) \/
  dotenv env = Some (KEY ^^ value ^^ LF ^^ rest) /\ grep_q rest = false ->
  grepLine (KEY ^^ value) = false /\ fst (start env) = Exit 1.
Proof.
  intros Hv Hvenv Hdot.
  pose proof (grepLine_key_underscores value Hv) as G.
  assert (HLF : Render.hasChar "010" (KEY ^^ value) = false).
  { rewrite hasChar_app. now rewrite (underscores_no_LF value Hv). }
  split; [exact G |].
  unfold start. rewrite Hvenv. cbn [negb]. unfold grep_q.
  destruct Hdot as [Hdot | [Hdot | [Hdot Hrest]]]; rewrite Hdot.
  - rewrite (lines_single _ HLF). cbn [existsb]. now rewrite G.
  - replace (KEY ^^ value ^^ LF) with ((KEY ^^ value) ^^ LF ^^ "")
      by (now rewrite append_assoc).
    rewrite (lines_app_LF _ "" HLF). cbn [lines existsb]. now rewrite G.
  - replace (KEY ^^ value ^^ LF ^^ rest) with ((KEY ^^ value) ^^ LF ^^ rest)
      by (now rewrite append_assoc).
    rewrite (lines_app_LF _ rest HLF). cbn [existsb]. rewrite G.
    unfold grep_q in Hrest. now rewrite Hrest.
Qed.

(** X21.  Two runs on a checkout without [.env]: the first copies [.env.example]
    and exits with code 1; the second finds [.env] and starts the server
    exactly when the example's own text passes the key check.  Nothing asks
    that the operator changed the file in between. *)
Theorem second_run_depends_on_example (env : Env) :
  venv env = true ->
  dotenv env = None ->
  dotenv (snd (start env)) = dotenv_example env /\
  startTwice env =
    (Exit 1,
     match dotenv_example env with
     | Some example => if grep_q example then ServerStarted else Exit 1
     | None => Exit 1
     end).
Proof.
  intros Hv Hd. unfold startTwice, start. rewrite Hv, Hd. cbn [negb snd fst venv dotenv].
  split; [reflexivity |].
  destruct (dotenv_example env) as [example|]; [| reflexivity].
  now destruct (grep_q example).
Qed.

End StartUpMore.

Lemma unset_key_is_rejected_witness :
  fst (StartScript.start
         {| StartScript.venv := true;
            StartScript.dotenv := Some "GEMINI_API_KEY=";
            StartScript.dotenv_example := None |}) = StartScript.Exit 1 /\
  fst (StartScript.start
         {| StartScript.venv := true;
            StartScript.dotenv := Some ("GEMINI_API_KEY=" ^^ LF);
            StartScript.dotenv_example := None |}) = StartScript.Exit 1 /\
  fst (StartScript.start
         {| StartScript.venv := true;
            StartScript.dotenv :=
              Some ("GEMINI_API_KEY=__" ^^ LF ^^ "PORT=8000" ^^ LF);
            StartScript.dotenv_example := None |}) = StartScript.Exit 1.
Proof.
  split; [| split].
  - apply (unset_key_is_rejected "" ""
             {| StartScript.venv := true;
                StartScript.dotenv := Some "GEMINI_API_KEY=";
                StartScript.dotenv_example := None |});
      [reflexivity | reflexivity | left; reflexivity].
  - apply (unset_key_is_rejected "" ""
             {| StartScript.venv := true;
                StartScript.dotenv := Some ("GEMINI_API_KEY=" ^^ LF);
                StartScript.dotenv_example := None |});
      [reflexivity | reflexivity | right; left; reflexivity].
  - apply (unset_key_is_rejected "__" ("PORT=8000" ^^ LF)
             {| StartScript.venv := true;
                StartScript.dotenv :=
                  Some ("GEMINI_API_KEY=__" ^^ LF ^^ "PORT=8000" ^^ LF);
                StartScript.dotenv_example := None |});
      [reflexivity | reflexivity | right; right; split; reflexivity].
Defined.

Lemma second_run_depends_on_example_witness :
  StartScript.startTwice
    {| StartScript.venv := true;
       StartScript.dotenv := None;
       StartScript.dotenv_example := Some "GEMINI_API_KEY=" |}
    = (StartScript.Exit 1, StartScript.Exit 1).
Proof.
  apply (second_run_depends_on_example
           {| StartScript.venv := true;
              StartScript.dotenv := None;
              StartScript.dotenv_example := Some "GEMINI_API_KEY=" |}); reflexivity.
Defined.
